(** * scx-ai-provider: request/response translation of the SCX provider

    A shallow embedding of the TypeScript sources
    - [src/index.ts], which holds the embedding translator [ScxEmbeddingModel]
      in its V2 and its V3 generation,
    - [src/scx-transcription-model.ts], the transcription translator,
    - [src/scx-provider.ts], the provider façade [createScx],
    together with the properties their specification states about them.

    JavaScript values that travel through the translators untouched are kept
    as they are at run time: a parsed JSON document is a [JSONValue], a value
    that may be [undefined] is an [option], a thrown exception or a rejected
    promise is a [Throw] completion.  Everything the code observes of its
    surroundings (the process environment, the clock, the HTTP calls it has
    issued) lives in an explicit [World] that is threaded through a small
    state-and-exception monad. *)

From Stdlib Require Import ZArith NArith String Ascii List PrimFloat DecimalString.
From Stdlib.Strings Require Import Byte.
From stdpp Require Import base option list strings gmap sorting.

Set Warnings "-inexact-float,-register-all".

(** ** JavaScript values *)

(** A JavaScript [number] is an IEEE 754 binary64 value. *)
Abbreviation number := float (only parsing).

(** The result of [JSON.parse], and the [JSONValue] type of [@ai-sdk/provider].
    Object fields are kept in insertion order, as [JSON.stringify] and
    [Object.assign] observe it. *)
Inductive JSONValue : Type :=
| JNull
| JBool (b : bool)
| JNumber (n : number)
| JString (s : string)
| JArray (items : list JSONValue)
| JObject (fields : list (string * JSONValue)).

(** A value that may be [undefined]: [None] is [undefined]. *)
Abbreviation JSValue := (option JSONValue) (only parsing).

(** ** Exceptions and completions *)

Inductive exn : Type :=
| Error (message : string)            (* [new Error(message)] *)
| TypeError (message : string)        (* raised by the language itself *)
| SyntaxError (message : string)      (* raised by [JSON.parse] *)
| LoadAPIKeyError (message : string)  (* raised by [loadApiKey] *)
| FetchFailure (reason : string).     (* the transport rejected the call *)

(** How the evaluation of an expression ends: normally with a value, or
    abruptly with a thrown exception. *)
Inductive completion (A : Type) : Type :=
| Normal (a : A)
| Throw (e : exn).
Arguments Normal {A} a.
Arguments Throw {A} e.

Definition is_normal {A} (c : completion A) : bool :=
  match c with Normal _ => true | Throw _ => false end.

#[export] Instance completion_ret : MRet completion := @Normal.
#[export] Instance completion_bind : MBind completion := fun A B f c =>
  match c with
  | Normal a => f a
  | Throw e => Throw e
  end.
#[export] Instance completion_fmap : FMap completion := fun A B f c =>
  match c with
  | Normal a => Normal (f a)
  | Throw e => Throw e
  end.

(** [xs.map(f)] where the callback may throw: elements are visited from left
    to right and the first exception aborts the traversal. *)
Fixpoint mapC {A B} (f : A -> completion B) (xs : list A) : completion (list B) :=
  match xs with
  | [] => Normal []
  | x :: xs' =>
      match f x with
      | Normal y =>
          match mapC f xs' with
          | Normal ys => Normal (y :: ys)
          | Throw e => Throw e
          end
      | Throw e => Throw e
      end
  end.

(** ** The fragment of the language semantics the translators rely on *)

(** [Array.isArray(v)]. *)
Definition isArray (v : JSONValue) : bool :=
  match v with JArray _ => true | _ => false end.

(** Lookup of an own property of an object literal. *)
Fixpoint assoc (k : string) (fields : list (string * JSONValue)) : JSValue :=
  match fields with
  | [] => None
  | (k', v) :: rest => if String.eqb k k' then Some v else assoc k rest
  end.

(** Property read [v.k].  Reading a property of [null] raises a [TypeError];
    on an object it yields the own property or [undefined].  The property
    names read by this program ([data], [usage], [embedding], [segments], ...)
    are not defined on the prototypes of arrays, strings, numbers or booleans,
    so on those the read yields [undefined]. *)
Definition getProp (v : JSONValue) (k : string) : completion JSValue :=
  match v with
  | JNull => Throw (TypeError ("Cannot read properties of null (reading '" +:+ k +:+ "')"))
  | JObject fields => Normal (assoc k fields)
  | _ => Normal None
  end.

(** [a ?? b]: the left operand unless it is [null] or [undefined]. *)
Definition nullish (v : JSValue) : bool :=
  match v with
  | None | Some JNull => true
  | Some _ => false
  end.

Definition coalesce (a : JSValue) (b : JSONValue) : JSONValue :=
  match a with
  | None | Some JNull => b
  | Some v => v
  end.

(** [ToBoolean]. *)
Definition truthy (v : JSValue) : bool :=
  match v with
  | None | Some JNull => false
  | Some (JBool b) => b
  | Some (JNumber n) => negb (PrimFloat.eqb n 0 || negb (PrimFloat.eqb n n))
  | Some (JString s) => negb (String.eqb s "")
  | Some (JArray _) | Some (JObject _) => true
  end.

(** [v.map(f)] for a callback that may throw: the mapped array when [v] is an
    array, a [TypeError] when it is not (there is no [map] method to call). *)
Definition callMap {B} (v : JSONValue) (f : JSONValue -> completion B)
  : completion (list B) :=
  match v with
  | JArray items => mapC f items
  | _ => Throw (TypeError "map is not a function")
  end.

(** [v?.map(f)]: [undefined] when [v] is nullish, [v.map(f)] otherwise. *)
Definition optMap {B} (v : JSValue) (f : JSONValue -> completion B)
  : completion (option (list B)) :=
  match v with
  | None | Some JNull => Normal None
  | Some v' => Some <$> callMap v' f
  end.

(** Template-literal rendering of an integral number such as an HTTP status. *)
Definition decimal (n : N) : string := NilZero.string_of_uint (N.to_uint n).

(** ** HTTP: requests, responses and the transport *)

(** An [AbortSignal] is opaque to the translators: it is only handed on. *)
Definition AbortSignal := nat.

Abbreviation Headers := (gmap string string) (only parsing).

(** The two arguments of a [fetch] call: the URL and the [RequestInit]. *)
Record Request : Type := mkRequest {
  url : string;
  method : string;
  req_headers : Headers;
  req_body : string;
  signal : option AbortSignal;
}.

(** A [Response] as the translators observe it: [status], the header pairs
    that [headers.forEach] enumerates in order, the body read as text, and the
    outcome of reading the body as JSON. *)
Record Response : Type := mkResponse {
  status : N;
  resp_headers : list (string * string);
  resp_text : string;                 (* what [text()] resolves to *)
  resp_json : completion JSONValue;   (* what [json()] resolves to, or rejects with *)
}.

(** [response.ok]: the status is in the range 200-299. *)
Definition ok (r : Response) : bool :=
  (200 <=? status r)%N && (status r <=? 299)%N.

(** A [FetchFunction] resolves to a response or rejects. *)
Definition FetchFunction := Request -> completion Response.

(** ** The world and the monad of effects *)

Record World : Type := mkWorld {
  env : gmap string string;   (* [process.env] *)
  now : Z;                    (* the clock read by [new Date()] *)
  calls : list Request;       (* the HTTP calls issued so far, oldest first *)
}.

Definition M (A : Type) : Type := World -> completion A * World.

#[export] Instance M_ret : MRet M := fun A a w => (Normal a, w).
#[export] Instance M_bind : MBind M := fun A B f m w =>
  match m w with
  | (Normal a, w') => f a w'
  | (Throw e, w') => (Throw e, w')
  end.

Definition throw {A} (e : exn) : M A := fun w => (Throw e, w).

Definition liftC {A} (c : completion A) : M A := fun w => (c, w).

(** Synchronous code that only observes the world, such as a header thunk
    [() => Record<string, string>] reading the environment. *)
Definition Reader (A : Type) : Type := World -> completion A.

Definition observe {A} (r : Reader A) : M A := fun w => (r w, w).

(** [process.env[name]]. *)
Definition getenv (name : string) : Reader (option string) :=
  fun w => Normal (env w !! name).

(** [new Date()]. *)
Definition newDate : M Z := fun w => (Normal (now w), w).

(** The world after one more HTTP call has been issued. *)
Definition recordCall (req : Request) (w : World) : World :=
  {| env := env w; now := now w; calls := calls w ++ [req] |}.

(** [await fetchFn(url, init)]: the call is issued, hence recorded, whether
    the transport then resolves or rejects. *)
Definition callFetch (fetchFn : FetchFunction) (req : Request) : M Response :=
  fun w => (fetchFn req, recordCall req w).

(** [headers[key] = value] on a record of strings.  An own property takes the
    new value, and under any other name a property is created, with one
    exception: under [__proto__] the object inherits a setter from
    [Object.prototype], which the assignment runs instead and which, given a
    string, does nothing. *)
Definition assignHeader (key value : string) (headers : Headers) : Headers :=
  if String.eqb key "__proto__" then
    match headers !! key with
    | Some _ => <[key := value]> headers
    | None => headers
    end
  else <[key := value]> headers.

(** [responseHeaders[key] = value] for each pair [headers.forEach] visits,
    starting from the empty record. *)
Definition collectHeaders (hs : list (string * string)) : Headers :=
  foldl (fun acc kv => assignHeader kv.1 kv.2 acc) ∅ hs.

(** ** Objects as records of fields *)

(** An object is the list of its own properties in the order in which
    JavaScript enumerates them, which is the order [JSON.stringify] writes
    them in: first the properties named by an array index, in ascending
    order, then the others in order of creation. *)

(** An array index: the canonical decimal numeral of an integer below
    [2^32 - 1]. *)
Definition arrayIndex (k : string) : option N :=
  match NilZero.uint_of_string k with
  | Some u =>
      let n := N.of_uint u in
      if String.eqb (decimal n) k && (n <? 4294967295)%N then Some n else None
  | None => None
  end.

(** An own property takes a new value and keeps its position. *)
Fixpoint replaceField (k : string) (v : JSONValue) (fields : list (string * JSONValue))
  : list (string * JSONValue) :=
  match fields with
  | [] => []
  | (k', v') :: rest =>
      if String.eqb k k' then (k, v) :: rest else (k', v') :: replaceField k v rest
  end.

(** A new property named by the array index [n] goes after the properties
    with smaller indices and before every other property. *)
Fixpoint insertIndex (n : N) (k : string) (v : JSONValue)
    (fields : list (string * JSONValue)) : list (string * JSONValue) :=
  match fields with
  | [] => [(k, v)]
  | (k', v') :: rest =>
      match arrayIndex k' with
      | Some n' =>
          if (n' <? n)%N then (k', v') :: insertIndex n k v rest
          else (k, v) :: fields
      | None => (k, v) :: fields
      end
  end.

(** [target[k] = v] on an object whose prototype is [Object.prototype].  An
    own property takes the new value.  Otherwise a property is created, at
    the place its name gives it, with one exception: under [__proto__] the
    assignment runs the setter inherited from [Object.prototype], which may
    change the prototype but creates no property. *)
Definition setField (k : string) (v : JSONValue) (fields : list (string * JSONValue))
  : list (string * JSONValue) :=
  match assoc k fields with
  | Some _ => replaceField k v fields
  | None =>
      if String.eqb k "__proto__" then fields
      else
        match arrayIndex k with
        | Some n => insertIndex n k v fields
        | None => fields ++ [(k, v)]
        end
  end.

(** [Object.assign(target, source)]: every own property of [source], in
    order, is assigned to [target] as by [target[k] = v]. *)
Definition objectAssign (target source : list (string * JSONValue))
  : list (string * JSONValue) :=
  foldl (fun t kv => setField kv.1 kv.2 t) target source.

(** ** Base64 *)

(** [Buffer.from(bytes).toString('base64')]: the standard alphabet; three
    octets, read as one 24-bit number, give four characters of six bits each,
    and a last group of one or two octets is padded with [=]. *)
Definition base64_alphabet : string :=
  "ABCDEFGHIJKLMNOPQRSTUVWXYZabcdefghijklmnopqrstuvwxyz0123456789+/".

(** The character for the low six bits of [n]. *)
Definition sextet (n : N) : ascii :=
  default "="%char (String.get (N.to_nat (n mod 64)) base64_alphabet).

Definition octets (a b c : byte) : N :=
  (Byte.to_N a * 65536 + Byte.to_N b * 256 + Byte.to_N c)%N.

Fixpoint base64 (bytes : list byte) : string :=
  match bytes with
  | [] => ""
  | [a] =>
      let n := octets a x00 x00 in
      String (sextet (n / 262144)) (String (sextet (n / 4096)) "==")
  | [a; b] =>
      let n := octets a b x00 in
      String (sextet (n / 262144)) (String (sextet (n / 4096))
        (String (sextet (n / 64)) "="))
  | a :: b :: c :: rest =>
      let n := octets a b c in
      String (sextet (n / 262144)) (String (sextet (n / 4096))
        (String (sextet (n / 64)) (String (sextet n) (base64 rest))))
  end.

(** ** Built-ins supplied by the platform *)

(** [JSON.stringify] and the global [fetch] are not part of this repository;
    the translators are stated over any implementation of them. *)
Class Platform : Type := {
  JSON_stringify : JSONValue -> string;
  globalFetch : FetchFunction;
}.

(** ** Header merging, shared by the translators *)

(** The per-call headers of a request: a JavaScript object whose values may be
    [undefined]; [None] when the caller passed no [headers] at all. *)
Abbreviation CallHeaders := (option (gmap string (option string))) (only parsing).

(** The block that every [doEmbed] and [doGenerate] starts its request with:
<<
    const headers = { 'Content-Type': 'application/json', ...this.config.headers() };
    if (additionalHeaders) {
      for (const [key, value] of Object.entries(additionalHeaders)) {
        if (value !== undefined) { headers[key] = value; }
      }
    }
>>
    [configHeaders] is what [this.config.headers()] returned.  The spread
    defines its entries over the literal's [Content-Type], which the
    left-biased union expresses; the loop assigns. *)
Definition mergeHeaders (configHeaders : Headers) (additionalHeaders : CallHeaders)
  : Headers :=
  let headers := configHeaders ∪ {[ "Content-Type" := "application/json" ]} in
  match additionalHeaders with
  | None => headers
  | Some entries =>
      map_fold (fun key value headers =>
                  match value with
                  | Some v => assignHeader key v headers
                  | None => headers
                  end) headers entries
  end.

(** * The embedding translator, V2 generation ([EmbeddingModelV2]) *)

Module EmbeddingV2.

Record ScxEmbeddingModelConfig : Type := {
  provider : string;
  baseURL : string;
  headers : Reader Headers;         (* [() => Record<string, string>] *)
  fetch : option FetchFunction;
}.

Record ScxEmbeddingModel : Type := {
  modelId : string;
  model_provider : string;
  config : ScxEmbeddingModelConfig;
}.

Definition specificationVersion : string := "v2".
Definition maxEmbeddingsPerCall : N := 2048.
Definition supportsParallelCalls : bool := true.

(** [new ScxEmbeddingModel(modelId, config)]. *)
Definition new (modelId : string) (config : ScxEmbeddingModelConfig)
  : ScxEmbeddingModel :=
  {| modelId := modelId; model_provider := provider config; config := config |}.

Record CallOptions : Type := {
  values : list string;
  abortSignal : option AbortSignal;
  additionalHeaders : CallHeaders;   (* the [headers] option *)
}.

Record Usage : Type := { tokens : JSONValue }.

Record Result : Type := {
  embeddings : list JSValue;
  usage : option Usage;
  rawResponse_headers : Headers;     (* [rawResponse.headers] *)
}.

(** The request body [{ model: this.modelId, input: values }]. *)
Definition requestBody (self : ScxEmbeddingModel) (options : CallOptions) : JSONValue :=
  JObject [("model", JString (modelId self));
           ("input", JArray (JString <$> values options))].

(** The callback [(d) => d.embedding]. *)
Definition embeddingOf (d : JSONValue) : completion JSValue :=
  getProp d "embedding".

(** <<
    Array.isArray(responseBody)
      ? responseBody.map((d) => d.embedding)
      : (responseBody.data?.map((d) => d.embedding) ?? [])
    >> *)
Definition extractEmbeddings (responseBody : JSONValue) : completion (list JSValue) :=
  if isArray responseBody then
    callMap responseBody embeddingOf
  else
    data ← getProp responseBody "data";
    mapped ← optMap data embeddingOf;
    mret (default [] mapped).

(** <<
    !Array.isArray(responseBody) && responseBody.usage
      ? { tokens: responseBody.usage.total_tokens ??
                  responseBody.usage.prompt_tokens ?? 0 }
      : undefined
    >> *)
Definition extractUsage (responseBody : JSONValue) : completion (option Usage) :=
  if negb (isArray responseBody) then
    u ← getProp responseBody "usage";
    match u with
    | Some usage =>
        if truthy u then
          total_tokens ← getProp usage "total_tokens";
          first ← (if nullish total_tokens
                   then getProp usage "prompt_tokens"
                   else mret total_tokens);
          mret (Some {| tokens := coalesce first (JNumber 0) |})
        else mret None
    | None => mret None
    end
  else mret None.

Section WithPlatform.
Context `{Platform}.

(** The request [doEmbed] hands to the transport. *)
Definition request (self : ScxEmbeddingModel) (options : CallOptions)
    (configHeaders : Headers) : Request :=
  {| url := baseURL (config self) +:+ "/embeddings";
     method := "POST";
     req_headers := mergeHeaders configHeaders (additionalHeaders options);
     req_body := JSON_stringify (requestBody self options);
     signal := abortSignal options |}.

(** What [doEmbed] makes of the response once the transport resolved. *)
Definition interpret (response : Response) : completion Result :=
  if negb (ok response) then
    let errorText := resp_text response in
    Throw (Error ("SCX embedding request failed: "
                    +:+ decimal (status response) +:+ " " +:+ errorText))
  else
    responseBody ← resp_json response;
    let responseHeaders := collectHeaders (resp_headers response) in
    embeddings ← extractEmbeddings responseBody;
    usage ← extractUsage responseBody;
    mret {| embeddings := embeddings;
            usage := usage;
            rawResponse_headers := responseHeaders |}.

Definition doEmbed (self : ScxEmbeddingModel) (options : CallOptions) : M Result :=
  configHeaders ← observe (headers (config self));
  let fetchFn := default globalFetch (fetch (config self)) in
  response ← callFetch fetchFn (request self options configHeaders);
  liftC (interpret response).

End WithPlatform.

End EmbeddingV2.

(** * The embedding translator, V3 generation ([EmbeddingModelV3]) *)

Module EmbeddingV3.

Record ScxEmbeddingModelConfig : Type := {
  provider : string;
  baseURL : string;
  headers : Reader Headers;
  fetch : option FetchFunction;
}.

Record ScxEmbeddingModel : Type := {
  modelId : string;
  model_provider : string;
  config : ScxEmbeddingModelConfig;
}.

Definition specificationVersion : string := "v3".
Definition maxEmbeddingsPerCall : N := 2048.
Definition supportsParallelCalls : bool := true.

Definition new (modelId : string) (config : ScxEmbeddingModelConfig)
  : ScxEmbeddingModel :=
  {| modelId := modelId; model_provider := provider config; config := config |}.

(** [EmbeddingModelV3CallOptions], as far as [doEmbed] reads it. *)
Record CallOptions : Type := {
  values : list string;
  abortSignal : option AbortSignal;
  additionalHeaders : CallHeaders;
}.

Record Usage : Type := { tokens : JSONValue }.

(** [SharedV3Warning]; the translator never produces one. *)
Inductive SharedV3Warning : Type :=
| Unsupported (feature : string)
| Other (message : string).

Record Result : Type := {
  embeddings : list JSValue;
  usage : option Usage;
  warnings : list SharedV3Warning;
  response_headers : Headers;        (* [response.headers] *)
  response_body : JSONValue;         (* [response.body] *)
}.

Definition requestBody (self : ScxEmbeddingModel) (options : CallOptions) : JSONValue :=
  JObject [("model", JString (modelId self));
           ("input", JArray (JString <$> values options))].

Definition embeddingOf (d : JSONValue) : completion JSValue :=
  getProp d "embedding".

Definition extractEmbeddings (responseBody : JSONValue) : completion (list JSValue) :=
  if isArray responseBody then
    callMap responseBody embeddingOf
  else
    data ← getProp responseBody "data";
    mapped ← optMap data embeddingOf;
    mret (default [] mapped).

Definition extractUsage (responseBody : JSONValue) : completion (option Usage) :=
  if negb (isArray responseBody) then
    u ← getProp responseBody "usage";
    match u with
    | Some usage =>
        if truthy u then
          total_tokens ← getProp usage "total_tokens";
          first ← (if nullish total_tokens
                   then getProp usage "prompt_tokens"
                   else mret total_tokens);
          mret (Some {| tokens := coalesce first (JNumber 0) |})
        else mret None
    | None => mret None
    end
  else mret None.

Section WithPlatform.
Context `{Platform}.

Definition request (self : ScxEmbeddingModel) (options : CallOptions)
    (configHeaders : Headers) : Request :=
  {| url := baseURL (config self) +:+ "/embeddings";
     method := "POST";
     req_headers := mergeHeaders configHeaders (additionalHeaders options);
     req_body := JSON_stringify (requestBody self options);
     signal := abortSignal options |}.

Definition interpret (response : Response) : completion Result :=
  if negb (ok response) then
    let errorText := resp_text response in
    Throw (Error ("SCX embedding request failed: "
                    +:+ decimal (status response) +:+ " " +:+ errorText))
  else
    responseBody ← resp_json response;
    let responseHeaders := collectHeaders (resp_headers response) in
    embeddings ← extractEmbeddings responseBody;
    usage ← extractUsage responseBody;
    let warnings := [] in
    mret {| embeddings := embeddings;
            usage := usage;
            warnings := warnings;
            response_headers := responseHeaders;
            response_body := responseBody |}.

Definition doEmbed (self : ScxEmbeddingModel) (options : CallOptions) : M Result :=
  configHeaders ← observe (headers (config self));
  let fetchFn := default globalFetch (fetch (config self)) in
  response ← callFetch fetchFn (request self options configHeaders);
  liftC (interpret response).

End WithPlatform.

End EmbeddingV3.

(** * The transcription translator ([src/scx-transcription-model.ts]) *)

Module Transcription.

Record ScxTranscriptionModelConfig : Type := {
  provider : string;
  baseURL : string;
  headers : Reader Headers;
  fetch : option FetchFunction;
}.

Record ScxTranscriptionModel : Type := {
  modelId : string;
  model_provider : string;
  config : ScxTranscriptionModelConfig;
}.

Definition specificationVersion : string := "v1".

Definition new (modelId : string) (config : ScxTranscriptionModelConfig)
  : ScxTranscriptionModel :=
  {| modelId := modelId; model_provider := provider config; config := config |}.

(** [audio: Uint8Array | string]. *)
Inductive Audio : Type :=
| Binary (bytes : list byte)
| Textual (s : string).

(** [TranscriptionModelV1CallOptions].  [providerOptions] maps a provider
    name to that provider's bag of JSON-valued options. *)
Record CallOptions : Type := {
  audio : Audio;
  mediaType : string;
  abortSignal : option AbortSignal;
  additionalHeaders : CallHeaders;
  providerOptions : option (gmap string (list (string * JSONValue)));
}.

(** [TranscriptionModelV1CallWarning]; the translator never produces one. *)
Inductive CallWarning : Type :=
| UnsupportedSetting (setting : string)
| OtherWarning (message : string).

Record Segment : Type := {
  seg_text : JSValue;        (* [text] *)
  startSecond : JSValue;
  endSecond : JSValue;
}.

Record Result : Type := {
  text : JSONValue;
  segments : list Segment;
  language : JSValue;
  durationInSeconds : JSValue;
  warnings : list CallWarning;
  request_body : string;         (* [request.body] *)
  response_timestamp : Z;        (* [response.timestamp] *)
  response_modelId : string;     (* [response.modelId] *)
  response_headers : Headers;    (* [response.headers] *)
  response_body : JSONValue;     (* [response.body] *)
}.

(** <<
    audio instanceof Uint8Array ? Buffer.from(audio).toString('base64') : audio
    >> *)
Definition audioData (a : Audio) : string :=
  match a with
  | Binary bytes => base64 bytes
  | Textual s => s
  end.

(** [providerOptions?.scx]. *)
Definition scxOptions (options : CallOptions) : option (list (string * JSONValue)) :=
  po ← providerOptions options; po !! "scx".

(** The object literal [{ model: this.modelId, audio: audioData, media_type: mediaType }]. *)
Definition baseBody (self : ScxTranscriptionModel) (options : CallOptions)
  : list (string * JSONValue) :=
  [("model", JString (modelId self));
   ("audio", JString (audioData (audio options)));
   ("media_type", JString (mediaType options))].

(** The request body: the three base fields, then
    [if (scxOptions) { Object.assign(requestBody, scxOptions); }]. *)
Definition requestBody (self : ScxTranscriptionModel) (options : CallOptions)
  : list (string * JSONValue) :=
  let requestBody := baseBody self options in
  match scxOptions options with
  | Some scx => objectAssign requestBody scx
  | None => requestBody
  end.

(** The callback that rebuilds one segment:
    [(seg) => ({ text: seg.text, startSecond: seg.start, endSecond: seg.end })]. *)
Definition segmentOf (seg : JSONValue) : completion Segment :=
  t ← getProp seg "text";
  s ← getProp seg "start";
  e ← getProp seg "end";
  mret {| seg_text := t; startSecond := s; endSecond := e |}.

(** [responseBody.segments?.map(...) ?? []]. *)
Definition extractSegments (responseBody : JSONValue) : completion (list Segment) :=
  segs ← getProp responseBody "segments";
  mapped ← optMap segs segmentOf;
  mret (default [] mapped).

Section WithPlatform.
Context `{Platform}.

(** [JSON.stringify(requestBody)], computed once. *)
Definition bodyString (self : ScxTranscriptionModel) (options : CallOptions) : string :=
  JSON_stringify (JObject (requestBody self options)).

Definition request (self : ScxTranscriptionModel) (options : CallOptions)
    (configHeaders : Headers) : Request :=
  {| url := baseURL (config self) +:+ "/transcriptions";
     method := "POST";
     req_headers := mergeHeaders configHeaders (additionalHeaders options);
     req_body := bodyString self options;
     signal := abortSignal options |}.

(** What [doGenerate] makes of the response once the transport resolved. *)
Definition interpret (self : ScxTranscriptionModel) (options : CallOptions)
    (response : Response) : M Result :=
  if negb (ok response) then
    let errorText := resp_text response in
    throw (Error ("SCX transcription request failed: "
                    +:+ decimal (status response) +:+ " " +:+ errorText))
  else
    responseBody ← liftC (resp_json response);
    let responseHeaders := collectHeaders (resp_headers response) in
    segments ← liftC (extractSegments responseBody);
    text ← liftC (getProp responseBody "text");
    language ← liftC (getProp responseBody "language");
    duration ← liftC (getProp responseBody "duration");
    timestamp ← newDate;
    mret {| text := coalesce text (JString "");
            segments := segments;
            language := language;
            durationInSeconds := duration;
            warnings := [];
            request_body := bodyString self options;
            response_timestamp := timestamp;
            response_modelId := modelId self;
            response_headers := responseHeaders;
            response_body := responseBody |}.

Definition doGenerate (self : ScxTranscriptionModel) (options : CallOptions)
  : M Result :=
  configHeaders ← observe (headers (config self));
  let fetchFn := default globalFetch (fetch (config self)) in
  response ← callFetch fetchFn (request self options configHeaders);
  interpret self options response.

End WithPlatform.

End Transcription.

(** * The provider façade ([src/scx-provider.ts]) *)

Module Provider.

(** ** Collaborators from outside the repository *)

(** Modelled from the spec: [withoutTrailingSlash] of
    [@ai-sdk/provider-utils], which this repository imports and does not
    define.  The specification asks for a base URL without its trailing
    slash; [undefined] stays [undefined]. *)
Fixpoint dropTrailingSlash (s : string) : string :=
  match s with
  | EmptyString => EmptyString
  | String c EmptyString => if Ascii.eqb c "/" then EmptyString else s
  | String c rest => String c (dropTrailingSlash rest)
  end.

Definition withoutTrailingSlash (url : option string) : option string :=
  dropTrailingSlash <$> url.

(** Modelled from the spec: [loadApiKey] of [@ai-sdk/provider-utils], which
    this repository imports and does not define: "a function that yields the
    API key string, falling back to reading environment variable
    [SCX_API_KEY], failing if neither is configured". *)
Definition loadApiKey (apiKey : option string)
    (environmentVariableName description : string) : Reader string :=
  fun w =>
    match apiKey with
    | Some key => Normal key
    | None =>
        fromEnv ← getenv environmentVariableName w;
        match fromEnv with
        | Some key => Normal key
        | None =>
            Throw (LoadAPIKeyError
                     (description +:+ " API key is missing. Pass it using the 'apiKey' parameter or the "
                        +:+ environmentVariableName +:+ " environment variable."))
        end
    end.

(** Modelled from the spec: [createOpenAICompatible] of
    [@ai-sdk/openai-compatible], which this repository imports and does not
    define: "an external OpenAI-compatible provider factory, given base
    URL/key/headers/transport, yielding a chat-model object".  The chat
    model is kept as the identifier it was asked for together with the
    settings its factory was built with. *)
Record OpenAICompatibleProviderSettings : Type := {
  oa_name : string;
  oa_baseURL : string;
  oa_apiKey : option string;
  oa_headers : option Headers;
  oa_fetch : option FetchFunction;
}.

Record LanguageModelV3 : Type := {
  lm_modelId : string;
  lm_settings : OpenAICompatibleProviderSettings;
}.

Record OpenAICompatibleProvider : Type := {
  chatModel : string -> LanguageModelV3;
}.

Definition createOpenAICompatible (settings : OpenAICompatibleProviderSettings)
  : OpenAICompatibleProvider :=
  {| chatModel := fun modelId => {| lm_modelId := modelId; lm_settings := settings |} |}.

(** ** The façade itself *)

Record ScxProviderSettings : Type := {
  baseURL : option string;
  apiKey : option string;
  headers : option Headers;
  fetch : option FetchFunction;
}.

(** The default argument [options = {}]. *)
Definition noSettings : ScxProviderSettings :=
  {| baseURL := None; apiKey := None; headers := None; fetch := None |}.

(** The provider is a function that also carries one method per entry
    point.  [invoke] is the function itself; its boolean argument tells
    whether it was entered through [new] (that is, whether [new.target] is
    set). *)
Record ScxProvider : Type := {
  invoke : bool -> string -> M LanguageModelV3;
  languageModel : string -> LanguageModelV3;
  chat : string -> LanguageModelV3;
  embedding : string -> EmbeddingV2.ScxEmbeddingModel;
  textEmbeddingModel : string -> EmbeddingV2.ScxEmbeddingModel;
  transcription : string -> Transcription.ScxTranscriptionModel;
  transcriptionModel : string -> Transcription.ScxTranscriptionModel;
}.

(** [const getApiKey = () => loadApiKey({ apiKey: options.apiKey, ... })]. *)
Definition getApiKey (options : ScxProviderSettings) : Reader string :=
  loadApiKey (apiKey options) "SCX_API_KEY" "SCX".

(** <<
    const getHeaders = () => ({
      Authorization: `Bearer ${getApiKey()}`,
      ...options.headers,
    });
    >> *)
Definition getHeaders (options : ScxProviderSettings) : Reader Headers :=
  fun w =>
    key ← getApiKey options w;
    mret (default ∅ (headers options) ∪ {[ "Authorization" := "Bearer " +:+ key ]}).

(** [withoutTrailingSlash(options.baseURL) ?? 'https://api.scx.ai/v1']. *)
Definition resolveBaseURL (options : ScxProviderSettings) : string :=
  default "https://api.scx.ai/v1" (withoutTrailingSlash (baseURL options)).

Definition createEmbeddingModel (options : ScxProviderSettings) (modelId : string)
  : EmbeddingV2.ScxEmbeddingModel :=
  EmbeddingV2.new modelId
    {| EmbeddingV2.provider := "scx.embedding";
       EmbeddingV2.baseURL := resolveBaseURL options;
       EmbeddingV2.headers := getHeaders options;
       EmbeddingV2.fetch := fetch options |}.

Definition createTranscriptionModel (options : ScxProviderSettings) (modelId : string)
  : Transcription.ScxTranscriptionModel :=
  Transcription.new modelId
    {| Transcription.provider := "scx.transcription";
       Transcription.baseURL := resolveBaseURL options;
       Transcription.headers := getHeaders options;
       Transcription.fetch := fetch options |}.

Definition newKeywordMessage : string :=
  "The SCX model function cannot be called with the new keyword.".

Definition createScx (options : ScxProviderSettings) : M ScxProvider :=
  let baseURL := resolveBaseURL options in
  (* [apiKey: getApiKey()] is an argument of the call below: the key is
     resolved here, while the provider is being built. *)
  key ← observe (getApiKey options);
  let openaiCompatible :=
    createOpenAICompatible
      {| oa_name := "scx";
         oa_baseURL := baseURL;
         oa_apiKey := Some key;
         oa_headers := headers options;
         oa_fetch := fetch options |} in
  let createChatModel := fun modelId => chatModel openaiCompatible modelId in
  let provider := fun (new_target : bool) (modelId : string) =>
    if new_target then throw (Error newKeywordMessage)
    else mret (createChatModel modelId) in
  mret {| invoke := provider;
          languageModel := createChatModel;
          chat := createChatModel;
          embedding := createEmbeddingModel options;
          textEmbeddingModel := createEmbeddingModel options;
          transcription := createTranscriptionModel options;
          transcriptionModel := createTranscriptionModel options |}.

(** [export const scx = createScx();], run when the module is loaded. *)
Definition scx : M ScxProvider := createScx noSettings.

End Provider.

(** * The transcription translator, V3 generation ([TranscriptionModelV3]) *)

Module TranscriptionV3.

Record ScxTranscriptionModelConfig : Type := {
  provider : string;
  baseURL : string;
  headers : Reader Headers;
  fetch : option FetchFunction;
}.

Record ScxTranscriptionModel : Type := {
  modelId : string;
  model_provider : string;
  config : ScxTranscriptionModelConfig;
}.

Definition specificationVersion : string := "v3".

Definition new (modelId : string) (config : ScxTranscriptionModelConfig)
  : ScxTranscriptionModel :=
  {| modelId := modelId; model_provider := provider config; config := config |}.

(** [TranscriptionModelV3CallOptions], as far as [doGenerate] reads it. *)
Record CallOptions : Type := {
  audio : Transcription.Audio;
  mediaType : string;
  abortSignal : option AbortSignal;
  additionalHeaders : CallHeaders;
  providerOptions : option (gmap string (list (string * JSONValue)));
}.

Record Segment : Type := {
  seg_text : JSValue;
  startSecond : JSValue;
  endSecond : JSValue;
}.

Record Result : Type := {
  text : JSONValue;
  segments : list Segment;
  language : JSValue;
  durationInSeconds : JSValue;
  warnings : list EmbeddingV3.SharedV3Warning;
  request_body : string;
  response_timestamp : Z;
  response_modelId : string;
  response_headers : Headers;
  response_body : JSONValue;
}.

Definition audioData (a : Transcription.Audio) : string :=
  match a with
  | Transcription.Binary bytes => base64 bytes
  | Transcription.Textual s => s
  end.

Definition scxOptions (options : CallOptions) : option (list (string * JSONValue)) :=
  po ← providerOptions options; po !! "scx".

Definition baseBody (self : ScxTranscriptionModel) (options : CallOptions)
  : list (string * JSONValue) :=
  [("model", JString (modelId self));
   ("audio", JString (audioData (audio options)));
   ("media_type", JString (mediaType options))].

Definition requestBody (self : ScxTranscriptionModel) (options : CallOptions)
  : list (string * JSONValue) :=
  let requestBody := baseBody self options in
  match scxOptions options with
  | Some scx => objectAssign requestBody scx
  | None => requestBody
  end.

Definition segmentOf (seg : JSONValue) : completion Segment :=
  t ← getProp seg "text";
  s ← getProp seg "start";
  e ← getProp seg "end";
  mret {| seg_text := t; startSecond := s; endSecond := e |}.

Definition extractSegments (responseBody : JSONValue) : completion (list Segment) :=
  segs ← getProp responseBody "segments";
  mapped ← optMap segs segmentOf;
  mret (default [] mapped).

Section WithPlatform.
Context `{Platform}.

Definition bodyString (self : ScxTranscriptionModel) (options : CallOptions) : string :=
  JSON_stringify (JObject (requestBody self options)).

Definition request (self : ScxTranscriptionModel) (options : CallOptions)
    (configHeaders : Headers) : Request :=
  {| url := baseURL (config self) +:+ "/transcriptions";
     method := "POST";
     req_headers := mergeHeaders configHeaders (additionalHeaders options);
     req_body := bodyString self options;
     signal := abortSignal options |}.

Definition interpret (self : ScxTranscriptionModel) (options : CallOptions)
    (response : Response) : M Result :=
  if negb (ok response) then
    let errorText := resp_text response in
    throw (Error ("SCX transcription request failed: "
                    +:+ decimal (status response) +:+ " " +:+ errorText))
  else
    responseBody ← liftC (resp_json response);
    let responseHeaders := collectHeaders (resp_headers response) in
    segments ← liftC (extractSegments responseBody);
    let warnings := [] in
    text ← liftC (getProp responseBody "text");
    language ← liftC (getProp responseBody "language");
    duration ← liftC (getProp responseBody "duration");
    timestamp ← newDate;
    mret {| text := coalesce text (JString "");
            segments := segments;
            language := language;
            durationInSeconds := duration;
            warnings := warnings;
            request_body := bodyString self options;
            response_timestamp := timestamp;
            response_modelId := modelId self;
            response_headers := responseHeaders;
            response_body := responseBody |}.

Definition doGenerate (self : ScxTranscriptionModel) (options : CallOptions)
  : M Result :=
  configHeaders ← observe (headers (config self));
  let fetchFn := default globalFetch (fetch (config self)) in
  response ← callFetch fetchFn (request self options configHeaders);
  interpret self options response.

End WithPlatform.

End TranscriptionV3.

(** * The provider façade, V3 generation ([ProviderV3]) *)

Module ProviderV3.
Import Provider.

(** [ImageModelV3] of [@ai-sdk/provider]; this provider never builds one. *)
Record ImageModelV3 : Type := { im_modelId : string }.

Record ScxProvider : Type := {
  invoke : bool -> string -> M LanguageModelV3;
  specificationVersion : string;
  languageModel : string -> LanguageModelV3;
  chat : string -> LanguageModelV3;
  embeddingModel : string -> EmbeddingV3.ScxEmbeddingModel;
  textEmbeddingModel : string -> EmbeddingV3.ScxEmbeddingModel;
  transcriptionModel : string -> TranscriptionV3.ScxTranscriptionModel;
  imageModel : string -> M ImageModelV3;
}.

Definition createEmbeddingModel (options : ScxProviderSettings) (modelId : string)
  : EmbeddingV3.ScxEmbeddingModel :=
  EmbeddingV3.new modelId
    {| EmbeddingV3.provider := "scx.embedding";
       EmbeddingV3.baseURL := resolveBaseURL options;
       EmbeddingV3.headers := getHeaders options;
       EmbeddingV3.fetch := fetch options |}.

Definition createTranscriptionModel (options : ScxProviderSettings) (modelId : string)
  : TranscriptionV3.ScxTranscriptionModel :=
  TranscriptionV3.new modelId
    {| TranscriptionV3.provider := "scx.transcription";
       TranscriptionV3.baseURL := resolveBaseURL options;
       TranscriptionV3.headers := getHeaders options;
       TranscriptionV3.fetch := fetch options |}.

Definition imageModelMessage : string := "Image model not supported".

Definition createScx (options : ScxProviderSettings) : M ScxProvider :=
  let baseURL := resolveBaseURL options in
  key ← observe (getApiKey options);
  let openaiCompatible :=
    createOpenAICompatible
      {| oa_name := "scx";
         oa_baseURL := baseURL;
         oa_apiKey := Some key;
         oa_headers := headers options;
         oa_fetch := fetch options |} in
  let createChatModel := fun modelId => chatModel openaiCompatible modelId in
  let provider := fun (new_target : bool) (modelId : string) =>
    if new_target then throw (Error newKeywordMessage)
    else mret (createChatModel modelId) in
  mret {| invoke := provider;
          specificationVersion := "v3";
          languageModel := createChatModel;
          chat := createChatModel;
          embeddingModel := createEmbeddingModel options;
          textEmbeddingModel := createEmbeddingModel options;
          transcriptionModel := createTranscriptionModel options;
          imageModel := fun _ => throw (Error imageModelMessage) |}.

Definition scx : M ScxProvider := createScx noSettings.

End ProviderV3.

(** * Vocabulary of the specification *)

(** [contains s t]: the text [t] occurs verbatim inside [s]. *)
Definition contains (s t : string) : Prop :=
  exists before after, s = before +:+ t +:+ after.

(** The header a request carries under a name, in the order of precedence the
    specification gives: a per-call header with a defined value, else the
    configuration's header, else the fixed [Content-Type].  A per-call header
    whose value is [undefined] counts as not given. *)
Definition headerByPrecedence (configHeaders : Headers) (perCall : CallHeaders)
    (name : string) : option string :=
  match perCall ≫= (fun entries => entries !! name) with
  | Some (Some value) => Some value
  | Some None | None =>
      match configHeaders !! name with
      | Some value => Some value
      | None =>
          if decide (name = "Content-Type") then Some "application/json" else None
      end
  end.

(** [d] is an object whose [embedding] property is [e]. *)
Definition hasEmbedding (d e : JSONValue) : Prop :=
  exists fields, d = JObject fields /\ assoc "embedding" fields = Some e.

(** The entries a response body carries: the items of a bare array, or the
    items of the [data] array of an object; none when [data] is missing. *)
Definition responseEntries (body : JSONValue) : list JSONValue :=
  match body with
  | JArray items => items
  | JObject fields =>
      match assoc "data" fields with
      | Some (JArray items) => items
      | _ => []
      end
  | _ => []
  end.

(** A property is present with value [x], in the sense of [??], when it is
    neither missing nor [null]; it is absent otherwise. *)
Definition present (v : JSValue) (x : JSONValue) : Prop :=
  v = Some x /\ x <> JNull.

Definition absent (v : JSValue) : Prop :=
  v = None \/ v = Some JNull.

(** [item] is an object from which the translator rebuilds the segment [s]:
    [text], [start] and [end] become [text], [startSecond] and [endSecond]. *)
Definition isSegment (item : JSONValue) (s : Transcription.Segment) : Prop :=
  exists fields,
    item = JObject fields
    /\ Transcription.seg_text s = assoc "text" fields
    /\ Transcription.startSecond s = assoc "start" fields
    /\ Transcription.endSecond s = assoc "end" fields.

(** ** Base64 text *)

(** What makes a text the base64 encoding of some octets is that decoding it
    gives the octets back.  [unbase64] is that decoder; the translators never
    run it, the remote API does. *)
Fixpoint indexOf (c : ascii) (s : string) : option N :=
  match s with
  | EmptyString => None
  | String c' rest =>
      if Ascii.eqb c c' then Some 0%N else N.succ <$> indexOf c rest
  end.

Definition unsextet (c : ascii) : option N := indexOf c base64_alphabet.

Fixpoint unbase64 (s : string) : option (list byte) :=
  match s with
  | EmptyString => Some []
  | String c1 (String c2 (String c3 (String c4 rest))) =>
      s1 ← unsextet c1;
      s2 ← unsextet c2;
      if Ascii.eqb c3 "=" then
        if Ascii.eqb c4 "=" && String.eqb rest "" then
          a ← Byte.of_N ((s1 * 64 + s2) / 16);
          Some [a]
        else None
      else
        s3 ← unsextet c3;
        if Ascii.eqb c4 "=" then
          if String.eqb rest "" then
            a ← Byte.of_N ((s1 * 4096 + s2 * 64 + s3) / 1024);
            b ← Byte.of_N ((s1 * 4096 + s2 * 64 + s3) / 4 mod 256);
            Some [a; b]
          else None
        else
          s4 ← unsextet c4;
          let n := (s1 * 262144 + s2 * 4096 + s3 * 64 + s4)%N in
          a ← Byte.of_N (n / 65536);
          b ← Byte.of_N (n / 256 mod 256);
          c ← Byte.of_N (n mod 256);
          tail ← unbase64 rest;
          Some (a :: b :: c :: tail)
  | _ => None
  end.

(** ** Reading a V2 translator as a V3 translator *)

(** The two generations declare the same configuration, model and call
    options; these functions carry a V2 value over to its V3 counterpart so
    that the two [doEmbed] can be run side by side. *)
Definition upgradeConfig (c : EmbeddingV2.ScxEmbeddingModelConfig)
  : EmbeddingV3.ScxEmbeddingModelConfig :=
  {| EmbeddingV3.provider := EmbeddingV2.provider c;
     EmbeddingV3.baseURL := EmbeddingV2.baseURL c;
     EmbeddingV3.headers := EmbeddingV2.headers c;
     EmbeddingV3.fetch := EmbeddingV2.fetch c |}.

Definition upgradeModel (m : EmbeddingV2.ScxEmbeddingModel)
  : EmbeddingV3.ScxEmbeddingModel :=
  EmbeddingV3.new (EmbeddingV2.modelId m) (upgradeConfig (EmbeddingV2.config m)).

Definition upgradeOptions (o : EmbeddingV2.CallOptions) : EmbeddingV3.CallOptions :=
  {| EmbeddingV3.values := EmbeddingV2.values o;
     EmbeddingV3.abortSignal := EmbeddingV2.abortSignal o;
     EmbeddingV3.additionalHeaders := EmbeddingV2.additionalHeaders o |}.

Definition upgradeUsage (u : option EmbeddingV2.Usage) : option EmbeddingV3.Usage :=
  match u with
  | Some x => Some {| EmbeddingV3.tokens := EmbeddingV2.tokens x |}
  | None => None
  end.

(** ** Shapes the decoders accept *)

(** An array element the callbacks can read a property of: anything but
    [null]. *)
Definition readable (d : JSONValue) : Prop := d <> JNull.

(** What [v?.map(callback)] goes through without throwing: a missing or
    [null] value, or an array of readable elements. *)
Definition listDecodable (v : JSValue) : Prop :=
  match v with
  | None | Some JNull => True
  | Some (JArray items) => Forall readable items
  | Some _ => False
  end.

(** The response bodies from which the embedding translator extracts its
    result without throwing. *)
Definition embeddingsDecodable (body : JSONValue) : Prop :=
  match body with
  | JNull => False
  | JArray items => Forall readable items
  | JObject fields => listDecodable (assoc "data" fields)
  | _ => True
  end.

(** The response bodies from which the transcription translator extracts its
    result without throwing. *)
Definition segmentsDecodable (body : JSONValue) : Prop :=
  match body with
  | JNull => False
  | JObject fields => listDecodable (assoc "segments" fields)
  | _ => True
  end.

(** ** Response headers *)

(** The value [headers.forEach] reports last under a name. *)
Definition lastValue (name : string) (hs : list (string * string)) : option string :=
  snd <$> last (filter (fun kv => kv.1 = name) hs).

(** ** The order of the fields of an object *)

(** Both names are array indices, and the first is the smaller one. *)
Definition indexBefore (a b : string) : Prop :=
  match arrayIndex a, arrayIndex b with
  | Some m, Some n => (m < n)%N
  | _, _ => False
  end.

(** ** Requests of provider-made translators *)

(** The header a provider-made translator sends under a name: the per-call
    header when its value is defined, else the provider's custom header, else
    the bearer token under [Authorization], else the fixed [Content-Type]. *)
Definition headerOnTheWire (custom : option Headers) (key : string)
    (perCall : CallHeaders) (name : string) : option string :=
  match perCall ≫= (fun entries => entries !! name) with
  | Some (Some value) => Some value
  | Some None | None =>
      match default ∅ custom !! name with
      | Some value => Some value
      | None =>
          if decide (name = "Authorization") then Some ("Bearer " +:+ key)
          else if decide (name = "Content-Type") then Some "application/json"
          else None
      end
  end.

(** ** Reading a V1 transcription translator as a V3 translator *)

Definition upgradeTranscriptionConfig (c : Transcription.ScxTranscriptionModelConfig)
  : TranscriptionV3.ScxTranscriptionModelConfig :=
  {| TranscriptionV3.provider := Transcription.provider c;
     TranscriptionV3.baseURL := Transcription.baseURL c;
     TranscriptionV3.headers := Transcription.headers c;
     TranscriptionV3.fetch := Transcription.fetch c |}.

Definition upgradeTranscriptionModel (m : Transcription.ScxTranscriptionModel)
  : TranscriptionV3.ScxTranscriptionModel :=
  TranscriptionV3.new (Transcription.modelId m)
    (upgradeTranscriptionConfig (Transcription.config m)).

Definition upgradeTranscriptionOptions (o : Transcription.CallOptions)
  : TranscriptionV3.CallOptions :=
  {| TranscriptionV3.audio := Transcription.audio o;
     TranscriptionV3.mediaType := Transcription.mediaType o;
     TranscriptionV3.abortSignal := Transcription.abortSignal o;
     TranscriptionV3.additionalHeaders := Transcription.additionalHeaders o;
     TranscriptionV3.providerOptions := Transcription.providerOptions o |}.

Definition upgradeSegment (s : Transcription.Segment) : TranscriptionV3.Segment :=
  {| TranscriptionV3.seg_text := Transcription.seg_text s;
     TranscriptionV3.startSecond := Transcription.startSecond s;
     TranscriptionV3.endSecond := Transcription.endSecond s |}.

(** The V3 result that says what a V1 result says, with no warning. *)
Definition upgradeTranscriptionResult (r : Transcription.Result)
  : TranscriptionV3.Result :=
  {| TranscriptionV3.text := Transcription.text r;
     TranscriptionV3.segments := upgradeSegment <$> Transcription.segments r;
     TranscriptionV3.language := Transcription.language r;
     TranscriptionV3.durationInSeconds := Transcription.durationInSeconds r;
     TranscriptionV3.warnings := [];
     TranscriptionV3.request_body := Transcription.request_body r;
     TranscriptionV3.response_timestamp := Transcription.response_timestamp r;
     TranscriptionV3.response_modelId := Transcription.response_modelId r;
     TranscriptionV3.response_headers := Transcription.response_headers r;
     TranscriptionV3.response_body := Transcription.response_body r |}.

(** ** Doubles for the platform, as a test would inject them *)

Module Doubles.

(** A platform whose serializer yields a fixed text and whose global
    transport is unreachable. *)
Definition offline : Platform :=
  {| JSON_stringify := fun _ => "{}";
     globalFetch := fun _ => Throw (FetchFailure "offline") |}.

(** A transport that answers every request with the same response. *)
Definition answering (r : Response) : FetchFunction := fun _ => Normal r.

Definition world : World := mkWorld ∅ 0 [].

Definition withKey (key : string) : World :=
  mkWorld {[ "SCX_API_KEY" := key ]} 0 [].

(** A response with the given status, body text and parsed body. *)
Definition replying (status : N) (text : string) (body : JSONValue) : Response :=
  {| status := status;
     resp_headers := [("content-type", "application/json")];
     resp_text := text;
     resp_json := Normal body |}.

(** A response whose body is not JSON. *)
Definition replyingText (status : N) (text : string) : Response :=
  {| status := status;
     resp_headers := [("content-type", "text/plain")];
     resp_text := text;
     resp_json := Throw (SyntaxError "Unexpected token") |}.

Definition bearer : Reader Headers :=
  fun _ => Normal {[ "Authorization" := "Bearer secret" ]}.

Definition embeddingModel (r : Response) : EmbeddingV2.ScxEmbeddingModel :=
  EmbeddingV2.new "E5-Mistral-7B-Instruct"
    {| EmbeddingV2.provider := "scx.embedding";
       EmbeddingV2.baseURL := "https://api.scx.ai/v1";
       EmbeddingV2.headers := bearer;
       EmbeddingV2.fetch := Some (answering r) |}.

Definition embed (values : list string) : EmbeddingV2.CallOptions :=
  {| EmbeddingV2.values := values;
     EmbeddingV2.abortSignal := None;
     EmbeddingV2.additionalHeaders := None |}.

Definition vec (xs : list number) : JSONValue := JArray (JNumber <$> xs).

Definition entry (xs : list number) : JSONValue :=
  JObject [("embedding", vec xs)].

Definition transcriptionModel (r : Response) : Transcription.ScxTranscriptionModel :=
  Transcription.new "whisper-large-v3"
    {| Transcription.provider := "scx.transcription";
       Transcription.baseURL := "https://api.scx.ai/v1";
       Transcription.headers := bearer;
       Transcription.fetch := Some (answering r) |}.

Definition transcribe (audio : Transcription.Audio)
    (scx : option (list (string * JSONValue))) : Transcription.CallOptions :=
  {| Transcription.audio := audio;
     Transcription.mediaType := "audio/wav";
     Transcription.abortSignal := None;
     Transcription.additionalHeaders := None;
     Transcription.providerOptions := (fun bag => {[ "scx" := bag ]}) <$> scx |}.

Definition traced : CallHeaders :=
  Some {[ "X-Trace" := None; "Content-Type" := Some "text/plain" ]}.

Definition embedTraced (values : list string) : EmbeddingV2.CallOptions :=
  {| EmbeddingV2.values := values;
     EmbeddingV2.abortSignal := None;
     EmbeddingV2.additionalHeaders := traced |}.

Definition transcribeTraced (audio : Transcription.Audio) : Transcription.CallOptions :=
  {| Transcription.audio := audio;
     Transcription.mediaType := "audio/wav";
     Transcription.abortSignal := None;
     Transcription.additionalHeaders := traced;
     Transcription.providerOptions := None |}.

Definition keyed (key : string) : Provider.ScxProviderSettings :=
  {| Provider.baseURL := None;
     Provider.apiKey := Some key;
     Provider.headers := None;
     Provider.fetch := None |}.

(** Models with no transport of their own: they call the global [fetch]. *)
Definition plainEmbeddingModel : EmbeddingV2.ScxEmbeddingModel :=
  EmbeddingV2.new "E5-Mistral-7B-Instruct"
    {| EmbeddingV2.provider := "scx.embedding";
       EmbeddingV2.baseURL := "https://api.scx.ai/v1";
       EmbeddingV2.headers := bearer;
       EmbeddingV2.fetch := None |}.

Definition plainTranscriptionModel : Transcription.ScxTranscriptionModel :=
  Transcription.new "whisper-large-v3"
    {| Transcription.provider := "scx.transcription";
       Transcription.baseURL := "https://api.scx.ai/v1";
       Transcription.headers := bearer;
       Transcription.fetch := None |}.

(** Provider settings with custom headers and a transport of their own. *)
Definition custom (r : Response) : Provider.ScxProviderSettings :=
  {| Provider.baseURL := Some "https://gateway.test/scx/";
     Provider.apiKey := None;
     Provider.headers := Some {[ "X-Team" := "search" ]};
     Provider.fetch := Some (answering r) |}.

End Doubles.

(** * Properties *)

(** ** The language fragment *)

Section Fragment.

Lemma mapC_Forall2 {A B} (f : A -> completion B) xs ys :
  mapC f xs = Normal ys <-> Forall2 (fun x y => f x = Normal y) xs ys.
Proof.
  revert ys. induction xs as [|x xs IH]; intros ys; simpl.
  - split.
    + intros [= <-]. constructor.
    + intros Hf. inversion Hf. reflexivity.
  - destruct (f x) as [y|e] eqn:Hx.
    + destruct (mapC f xs) as [ys'|e] eqn:Hxs.
      * split.
        -- intros [= <-]. constructor; [exact Hx | now apply IH].
        -- intros Hf. inversion Hf as [|? y' ? ys'' Hy Hrest]; subst.
           apply IH in Hrest. congruence.
      * split; [discriminate|].
        intros Hf. inversion Hf as [|? y' ? ys'' Hy Hrest]; subst.
        apply IH in Hrest. discriminate.
    + split; [discriminate|].
      intros Hf. inversion Hf; congruence.
Qed.

Lemma mapC_length {A B} (f : A -> completion B) xs ys :
  mapC f xs = Normal ys -> length ys = length xs.
Proof.
  intros Hm. apply mapC_Forall2 in Hm. symmetry. exact (Forall2_length _ _ _ Hm).
Qed.

Lemma mapC_lookup {A B} (f : A -> completion B) xs ys i x :
  mapC f xs = Normal ys -> xs !! i = Some x ->
  exists y, f x = Normal y /\ ys !! i = Some y.
Proof.
  intros Hm Hx. apply mapC_Forall2 in Hm.
  destruct (Forall2_lookup_l _ _ _ _ _ Hm Hx) as (y & Hy & Hf). eauto.
Qed.

Lemma contains_middle (a t b : string) : contains (a +:+ t +:+ b) t.
Proof. exists a, b. reflexivity. Qed.

Lemma string_app_assoc (a b c : string) : (a +:+ b) +:+ c = a +:+ b +:+ c.
Proof.
  induction a as [|ch a IH]; [reflexivity|].
  change (String ch ((a +:+ b) +:+ c) = String ch (a +:+ b +:+ c)).
  now rewrite IH.
Qed.

Lemma string_app_nil_r (a : string) : a +:+ "" = a.
Proof.
  induction a as [|ch a IH]; [reflexivity|].
  change (String ch (a +:+ "") = String ch a).
  now rewrite IH.
Qed.

Lemma contains_end (a t : string) : contains (a +:+ t) t.
Proof. exists a, "". now rewrite string_app_nil_r. Qed.

End Fragment.

(** ** Header merging *)

Section HeaderMerging.

Lemma assignHeader_lookup_other (key value name : string) (headers : Headers) :
  key <> name -> assignHeader key value headers !! name = headers !! name.
Proof.
  intros Hne. unfold assignHeader.
  destruct (String.eqb key "__proto__"); [destruct (headers !! key)|];
    try reflexivity; now rewrite lookup_insert_ne.
Qed.

Lemma assignHeader_lookup (key value : string) (headers : Headers) :
  key <> "__proto__" -> assignHeader key value headers !! key = Some value.
Proof.
  intros Hne. unfold assignHeader.
  apply String.eqb_neq in Hne. rewrite Hne. apply lookup_insert_eq.
Qed.

Lemma assignHeader_proto (key value : string) (headers : Headers) :
  headers !! "__proto__" = None ->
  assignHeader key value headers !! "__proto__" = None.
Proof.
  intros Hnone. unfold assignHeader.
  destruct (String.eqb key "__proto__") eqn:Hk.
  - apply String.eqb_eq in Hk. subst key. now rewrite Hnone.
  - apply String.eqb_neq in Hk. now rewrite lookup_insert_ne.
Qed.

Lemma mergeHeaders_base (configHeaders : Headers) (k : string) :
  (configHeaders ∪ {[ "Content-Type" := "application/json" ]} : Headers) !! k
  = match configHeaders !! k with
    | Some value => Some value
    | None => if decide (k = "Content-Type") then Some "application/json" else None
    end.
Proof.
  rewrite lookup_union.
  destruct (configHeaders !! k) as [v|] eqn:Hc.
  - now rewrite union_Some_l.
  - rewrite (left_id None _). case_decide as Hk.
    + subst k. apply lookup_singleton_eq.
    + apply lookup_singleton_ne. congruence.
Qed.

Lemma mergeHeaders_fold (base : Headers) (entries : gmap string (option string))
    (name : string) :
  map_fold (fun key value headers =>
              match value with
              | Some v => assignHeader key v headers
              | None => headers
              end) base entries !! name
  = match entries !! name with
    | Some (Some value) =>
        if String.eqb name "__proto__"
        then match base !! name with Some _ => Some value | None => None end
        else Some value
    | _ => base !! name
    end.
Proof.
  apply (map_fold_weak_ind (fun (r : Headers) (m : gmap string (option string)) =>
    r !! name = match m !! name with
                | Some (Some value) =>
                    if String.eqb name "__proto__"
                    then match base !! name with Some _ => Some value | None => None end
                    else Some value
                | _ => base !! name
                end)).
  - now rewrite lookup_empty.
  - intros k x m r Hfresh IH.
    destruct (decide (k = name)) as [->|Hne].
    + rewrite lookup_insert_eq. rewrite Hfresh in IH. destruct x as [v|]; [|exact IH].
      unfold assignHeader. destruct (String.eqb name "__proto__").
      * rewrite IH. destruct (base !! name); [apply lookup_insert_eq | exact IH].
      * apply lookup_insert_eq.
    + rewrite (lookup_insert_ne m) by exact Hne. destruct x as [v|]; [|exact IH].
      now rewrite assignHeader_lookup_other.
Qed.

Lemma mergeHeaders_lookup (configHeaders : Headers) (perCall : CallHeaders)
    (name : string) :
  name <> "__proto__" ->
  mergeHeaders configHeaders perCall !! name
  = headerByPrecedence configHeaders perCall name.
Proof.
  intros Hname. apply String.eqb_neq in Hname.
  unfold mergeHeaders, headerByPrecedence.
  destruct perCall as [entries|]; simpl; [|apply mergeHeaders_base].
  rewrite mergeHeaders_fold, Hname, mergeHeaders_base. reflexivity.
Qed.

Lemma mergeHeaders_proto (configHeaders : Headers) (perCall : CallHeaders) :
  configHeaders !! "__proto__" = None ->
  mergeHeaders configHeaders perCall !! "__proto__" = None.
Proof.
  intros Hnone.
  assert (Hbase : (configHeaders ∪ {[ "Content-Type" := "application/json" ]}
                   : Headers) !! "__proto__" = None).
  { rewrite mergeHeaders_base, Hnone. reflexivity. }
  unfold mergeHeaders. destruct perCall as [entries|]; simpl; [|exact Hbase].
  rewrite mergeHeaders_fold, Hbase. simpl.
  now destruct (entries !! "__proto__") as [[v|]|].
Qed.


End HeaderMerging.

(** ** The embedding translator (V2) *)

Module EmbeddingV2Props.
Import EmbeddingV2.

Lemma extractEmbeddings_entries body es :
  extractEmbeddings body = Normal es ->
  Forall2 (fun d e => embeddingOf d = Normal e) (responseEntries body) es.
Proof.
  unfold extractEmbeddings, responseEntries.
  destruct body as [| b | n | s | items | fields]; simpl;
    try (intros [= <-]; constructor); try discriminate.
  - intros Hm. now apply mapC_Forall2.
  - destruct (assoc "data" fields) as [[| b | n | s | items | fs]|]; simpl;
      try (intros [= <-]; constructor); try discriminate.
    destruct (mapC embeddingOf items) as [ys|e] eqn:Hm; simpl; [|discriminate].
    intros [= <-]. now apply mapC_Forall2.
Qed.

Lemma mapC_hasEmbedding items es :
  Forall2 hasEmbedding items es -> mapC embeddingOf items = Normal (Some <$> es).
Proof.
  intros Hf. apply mapC_Forall2.
  induction Hf as [|d e items es (fields & -> & Hd) _ IH]; simpl; constructor.
  - unfold embeddingOf. simpl. now rewrite Hd.
  - exact IH.
Qed.

Lemma extractUsage_array items : extractUsage (JArray items) = Normal None.
Proof. reflexivity. Qed.

Lemma extractUsage_object fields u :
  assoc "usage" fields = Some (JObject u) ->
  extractUsage (JObject fields)
  = Normal (Some {| tokens :=
                      coalesce (if nullish (assoc "total_tokens" u)
                                then assoc "prompt_tokens" u
                                else assoc "total_tokens" u) (JNumber 0) |}).
Proof.
  intros Hu. unfold extractUsage. simpl. rewrite Hu. simpl.
  destruct (nullish (assoc "total_tokens" u)); reflexivity.
Qed.

Lemma extractUsage_total body :
  body <> JNull -> exists u, extractUsage body = Normal u.
Proof.
  intros Hnn. unfold extractUsage.
  destruct body as [| b | n | s | items | fields]; simpl; try (eexists; reflexivity).
  - congruence.
  - destruct (assoc "usage" fields) as [u|]; [|eexists; reflexivity].
    destruct (truthy (Some u)) eqn:Ht; [|eexists; reflexivity].
    destruct u as [| b | n | s | items | ufields]; simpl in *;
      try discriminate; try (eexists; reflexivity).
    destruct (nullish (assoc "total_tokens" ufields)); simpl; eexists; reflexivity.
Qed.

Section WithPlatform.
Context `{Platform}.

(** The transport [doEmbed] calls: [this.config.fetch ?? fetch]. *)
Lemma doEmbed_run self options w h :
  headers (config self) w = Normal h ->
  doEmbed self options w
  = (default globalFetch (fetch (config self)) (request self options h)
       ≫= interpret,
     recordCall (request self options h) w).
Proof.
  intros Hh. unfold doEmbed, mbind, M_bind, observe, callFetch, liftC.
  rewrite Hh.
  destruct (default globalFetch (fetch (config self)) (request self options h));
    reflexivity.
Qed.

Lemma doEmbed_headers_fail self options w e :
  headers (config self) w = Throw e -> doEmbed self options w = (Throw e, w).
Proof.
  intros Hh. unfold doEmbed, mbind, M_bind, observe. now rewrite Hh.
Qed.

Lemma doEmbed_success self options w r w' :
  doEmbed self options w = (Normal r, w') ->
  exists h response body,
    headers (config self) w = Normal h
    /\ default globalFetch (fetch (config self)) (request self options h)
       = Normal response
    /\ ok response = true
    /\ resp_json response = Normal body
    /\ extractEmbeddings body = Normal (embeddings r)
    /\ extractUsage body = Normal (usage r)
    /\ rawResponse_headers r = collectHeaders (resp_headers response)
    /\ w' = recordCall (request self options h) w.
Proof.
  destruct (headers (config self) w) as [h|e] eqn:Hh.
  - rewrite (doEmbed_run _ _ _ _ Hh).
    destruct (default globalFetch (fetch (config self)) (request self options h))
      as [response|e] eqn:Hf; simpl; [|discriminate].
    unfold interpret. destruct (ok response) eqn:Hok; simpl; [|discriminate].
    destruct (resp_json response) as [body|e] eqn:Hj; simpl; [|discriminate].
    destruct (extractEmbeddings body) as [es|e] eqn:He; simpl; [|discriminate].
    destruct (extractUsage body) as [u|e] eqn:Hu; simpl; [|discriminate].
    intros [= <- <-]. exists h, response, body. simpl. repeat split; auto.
  - rewrite (doEmbed_headers_fail _ _ _ _ Hh). discriminate.
Qed.

Lemma doEmbed_interpret self options w h response body es u :
  headers (config self) w = Normal h ->
  default globalFetch (fetch (config self)) (request self options h)
    = Normal response ->
  ok response = true ->
  resp_json response = Normal body ->
  extractEmbeddings body = Normal es ->
  extractUsage body = Normal u ->
  doEmbed self options w
  = (Normal {| embeddings := es; usage := u;
               rawResponse_headers := collectHeaders (resp_headers response) |},
     recordCall (request self options h) w).
Proof.
  intros Hh Hf Hok Hj He Hu. rewrite (doEmbed_run _ _ _ _ Hh), Hf. simpl.
  unfold interpret. rewrite Hok, Hj. simpl. rewrite He. simpl. rewrite Hu.
  reflexivity.
Qed.

End WithPlatform.

End EmbeddingV2Props.

Module EmbeddingV2Claims.
Import EmbeddingV2 EmbeddingV2Props.

(** C2, as stated, does not hold: the number of vectors [doEmbed] returns is
    the number of entries in the response, whatever the number of inputs.
    Here one input is sent, the remote API answers 200 with the object [{}],
    and the call succeeds with no vector at all. *)
Lemma doEmbed_count_is_the_responses :
  ~ (forall (P : Platform) (self : ScxEmbeddingModel) (options : CallOptions)
            (w w' : World) (r : Result),
       values options <> [] ->
       length (values options) <= 2048 ->
       doEmbed self options w = (Normal r, w') ->
       length (embeddings r) = length (values options)).
Proof.
  intros Hclaim.
  pose (self := Doubles.embeddingModel (Doubles.replying 200 "{}" (JObject []))).
  pose (options := Doubles.embed ["hello"]).
  specialize (Hclaim Doubles.offline self options Doubles.world
                (recordCall (@request Doubles.offline self options
                               {[ "Authorization" := "Bearer secret" ]})
                   Doubles.world)
                {| embeddings := []; usage := None;
                   rawResponse_headers := {[ "content-type" := "application/json" ]} |}).
  simpl in Hclaim.
  assert (Hlen : 0 = 1); [|discriminate Hlen].
  apply Hclaim; [discriminate | lia | reflexivity].
Qed.

Section WithPlatform.
Context `{Platform}.

(** C2 (amended): a successful [doEmbed] returns exactly one vector per
    entry of the response body (the items of a bare array, or of the
    object's [data]), in the response's order, the vector at position [i]
    being the [embedding] of the entry at position [i]; it therefore
    returns as many vectors as there are inputs when the remote API
    answers with one entry per input. *)
Theorem doEmbed_one_vector_per_response_entry self options w r w' :
  doEmbed self options w = (Normal r, w') ->
  exists h response body,
    headers (config self) w = Normal h
    /\ default globalFetch (fetch (config self)) (request self options h)
       = Normal response
    /\ resp_json response = Normal body
    /\ length (embeddings r) = length (responseEntries body)
    /\ (forall i d, responseEntries body !! i = Some d ->
          exists e, embeddingOf d = Normal e /\ embeddings r !! i = Some e)
    /\ (length (responseEntries body) = length (values options) ->
          length (embeddings r) = length (values options)).
Proof.
  intros Hrun.
  destruct (doEmbed_success _ _ _ _ _ Hrun)
    as (h & response & body & Hh & Hf & _ & Hj & He & _).
  apply extractEmbeddings_entries in He.
  exists h, response, body. repeat split; auto.
  - symmetry. exact (Forall2_length _ _ _ He).
  - intros i d Hd.
    destruct (Forall2_lookup_l _ _ _ _ _ He Hd) as (e & Hi & Hde). eauto.
  - intros <-. symmetry. exact (Forall2_length _ _ _ He).
Qed.

End WithPlatform.

(** The amended C2 at work: two inputs, two entries in the reply, two
    vectors in the reply's order. *)
Lemma doEmbed_one_vector_per_response_entry_witness :
  let reply := Doubles.replying 200 "[...]"
                 (JArray [Doubles.entry [0.5; 0.25]%float; Doubles.entry [1; 2]%float]) in
  let self := Doubles.embeddingModel reply in
  let options := Doubles.embed ["first"; "second"] in
  exists r w',
    @doEmbed Doubles.offline self options Doubles.world = (Normal r, w')
    /\ length (embeddings r) = 2
    /\ length (embeddings r) = length (values options).
Proof.
  intros reply self options.
  eexists _, _. split; [lazy; reflexivity|].
  destruct (@doEmbed_one_vector_per_response_entry Doubles.offline
              self options Doubles.world _ _ eq_refl)
    as (h & response & body & Hh & Hf & Hj & Hlen & _ & Hn).
  injection Hh as <-. injection Hf as <-. injection Hj as <-.
  split; [exact Hlen | apply Hn; reflexivity].
Defined.

Section Shapes.
Context `{Platform}.

(** C3: on a successful response, [doEmbed] tells the two reply shapes apart
    by whether the top-level value is an array.  A bare array of objects
    carrying [embedding] yields those embeddings in order; an object yields
    the embeddings of its [data] array in order; an object without [data]
    yields the empty sequence, and the call still succeeds. *)
Theorem doEmbed_detects_shape self options w h response body :
  headers (config self) w = Normal h ->
  default globalFetch (fetch (config self)) (request self options h)
    = Normal response ->
  ok response = true ->
  resp_json response = Normal body ->
  (forall items es,
     body = JArray items -> Forall2 hasEmbedding items es ->
     exists r, (doEmbed self options w).1 = Normal r
               /\ embeddings r = Some <$> es)
  /\ (forall fields items es,
        body = JObject fields -> assoc "data" fields = Some (JArray items) ->
        Forall2 hasEmbedding items es ->
        exists r, (doEmbed self options w).1 = Normal r
                  /\ embeddings r = Some <$> es)
  /\ (forall fields,
        body = JObject fields -> assoc "data" fields = None ->
        exists r, (doEmbed self options w).1 = Normal r
                  /\ embeddings r = []).
Proof.
  intros Hh Hf Hok Hj. repeat split.
  - intros items es -> Hitems.
    eexists. rewrite (doEmbed_interpret _ _ _ _ _ _ (Some <$> es) None Hh Hf Hok Hj).
    + split; reflexivity.
    + simpl. now apply mapC_hasEmbedding.
    + reflexivity.
  - intros fields items es -> Hdata Hitems.
    destruct (extractUsage_total (JObject fields)) as [u Hu]; [discriminate|].
    eexists. rewrite (doEmbed_interpret _ _ _ _ _ _ (Some <$> es) u Hh Hf Hok Hj).
    + split; reflexivity.
    + unfold extractEmbeddings. simpl. rewrite Hdata. simpl.
      now rewrite (mapC_hasEmbedding _ _ Hitems).
    + exact Hu.
  - intros fields -> Hdata.
    destruct (extractUsage_total (JObject fields)) as [u Hu]; [discriminate|].
    eexists. rewrite (doEmbed_interpret _ _ _ _ _ _ [] u Hh Hf Hok Hj).
    + split; reflexivity.
    + unfold extractEmbeddings. simpl. now rewrite Hdata.
    + exact Hu.
Qed.

(** C4: on a successful response, an object reply with a [usage] object
    yields [usage.tokens] equal to [total_tokens] when present, else to
    [prompt_tokens] when present, else to [0]; a bare-array reply, or an object
    without [usage], yields no [usage] at all. *)
Theorem doEmbed_usage self options w r w' :
  doEmbed self options w = (Normal r, w') ->
  exists h response body,
    headers (config self) w = Normal h
    /\ default globalFetch (fetch (config self)) (request self options h)
       = Normal response
    /\ resp_json response = Normal body
    /\ (isArray body = true -> usage r = None)
    /\ (forall fields,
          body = JObject fields -> assoc "usage" fields = None -> usage r = None)
    /\ (forall fields u,
          body = JObject fields -> assoc "usage" fields = Some (JObject u) ->
          (forall t, present (assoc "total_tokens" u) t ->
                     usage r = Some {| tokens := t |})
          /\ (forall p, absent (assoc "total_tokens" u) ->
                        present (assoc "prompt_tokens" u) p ->
                        usage r = Some {| tokens := p |})
          /\ (absent (assoc "total_tokens" u) ->
              absent (assoc "prompt_tokens" u) ->
              usage r = Some {| tokens := JNumber 0 |})).
Proof.
  intros Hrun.
  destruct (doEmbed_success _ _ _ _ _ Hrun)
    as (h & response & body & Hh & Hf & _ & Hj & _ & Hu & _).
  exists h, response, body.
  split; [exact Hh|]. split; [exact Hf|]. split; [exact Hj|].
  split; [|split].
  - intros Harr. destruct body; try discriminate Harr.
    rewrite extractUsage_array in Hu. congruence.
  - intros fields -> Hnone. unfold extractUsage in Hu. simpl in Hu.
    rewrite Hnone in Hu. now injection Hu as <-.
  - intros fields u -> Husage.
    rewrite (extractUsage_object _ _ Husage) in Hu. injection Hu as Hu.
    split; [|split].
    + intros t [Ht Hnn]. rewrite <- Hu, Ht.
      destruct t; try reflexivity. congruence.
    + intros p Habs [Hp Hnn]. rewrite <- Hu.
      destruct Habs as [-> | ->]; simpl; rewrite Hp;
        destruct p; try reflexivity; congruence.
    + intros Ha Hb. rewrite <- Hu.
      destruct Ha as [-> | ->]; simpl; destruct Hb as [-> | ->]; reflexivity.
Qed.

End Shapes.

(** C3 at work on the bare-array reply of the specification. *)
Lemma doEmbed_detects_shape_witness :
  let reply := Doubles.replying 200 "[...]"
                 (JArray [Doubles.entry [0.1; 0.2]%float; Doubles.entry [0.3; 0.4]%float]) in
  exists r,
    (@doEmbed Doubles.offline (Doubles.embeddingModel reply)
       (Doubles.embed ["a"; "b"]) Doubles.world).1 = Normal r
    /\ embeddings r = [Some (Doubles.vec [0.1; 0.2]%float);
                       Some (Doubles.vec [0.3; 0.4]%float)].
Proof.
  intros reply.
  destruct (@doEmbed_detects_shape Doubles.offline (Doubles.embeddingModel reply)
              (Doubles.embed ["a"; "b"]) Doubles.world _ reply _
              eq_refl eq_refl eq_refl eq_refl) as (Harray & _ & _).
  apply (Harray _ [Doubles.vec [0.1; 0.2]%float; Doubles.vec [0.3; 0.4]%float] eq_refl).
  repeat constructor; eexists; (split; reflexivity).
Defined.

(** C4 at work: a reply whose [usage] has [prompt_tokens] only. *)
Lemma doEmbed_usage_witness :
  let reply := Doubles.replying 200 "{...}"
                 (JObject [("data", JArray [Doubles.entry [1; 2]%float]);
                           ("usage", JObject [("prompt_tokens", JNumber 7)])]) in
  exists r w',
    @doEmbed Doubles.offline (Doubles.embeddingModel reply)
      (Doubles.embed ["a"]) Doubles.world = (Normal r, w')
    /\ usage r = Some {| tokens := JNumber 7 |}.
Proof.
  intros reply. eexists _, _. split; [lazy; reflexivity|].
  destruct (@doEmbed_usage Doubles.offline (Doubles.embeddingModel reply)
              (Doubles.embed ["a"]) Doubles.world _ _ eq_refl)
    as (h & response & body & Hh & Hf & Hj & _ & _ & Hobject).
  injection Hf as <-. injection Hj as <-.
  destruct (Hobject _ _ eq_refl eq_refl) as (_ & Hprompt & _).
  apply Hprompt; [left; reflexivity | split; [reflexivity | discriminate]].
Defined.

End EmbeddingV2Claims.

(** ** Base64 *)

Section Base64.

Lemma unsextet_sextet n : (n < 64)%N -> unsextet (sextet n) = Some n /\ Ascii.eqb (sextet n) "=" = false.
Proof.
  intros Hn.
  assert (Hall : forallb (fun k => let n := N.of_nat k in
             match unsextet (sextet n) with Some m => N.eqb m n | None => false end
             && negb (Ascii.eqb (sextet n) "="))
           (seq 0 64) = true) by (vm_compute; reflexivity).
  rewrite forallb_forall in Hall.
  specialize (Hall (N.to_nat n)).
  rewrite N2Nat.id in Hall. 
  assert (Hin : In (N.to_nat n) (seq 0 64)) by (apply in_seq; lia).
  apply Hall in Hin. apply andb_true_iff in Hin as [H1 H2].
  destruct (unsextet (sextet n)) as [m|]; [|discriminate].
  apply N.eqb_eq in H1. subst. split; [reflexivity|].
  now apply negb_true_iff in H2.
Qed.

Lemma to_N_lt a : (Byte.to_N a < 256)%N.
Proof. pose proof (Byte.to_N_bounded a). lia. Qed.

Lemma sextets_recombine (n : N) :
  (n < 16777216)%N ->
  ((n / 262144 mod 64) * 262144 + (n / 4096 mod 64) * 4096
   + (n / 64 mod 64) * 64 + n mod 64 = n)%N.
Proof.
  intros Hn.
  assert (H1 : (n / 262144 mod 64 = n / 262144)%N) by (apply N.mod_small; zify; Z.div_mod_to_equations; lia).
  assert (H2 : (n / 4096 = (n / 262144) * 64 + n / 4096 mod 64)%N).
  { pose proof (N.div_mod' (n / 4096) 64) as E. rewrite N.Div0.div_div in E.
    change (4096 * 64)%N with 262144%N in E. lia. }
  assert (H3 : (n / 64 = (n / 4096) * 64 + n / 64 mod 64)%N).
  { pose proof (N.div_mod' (n / 64) 64) as E. rewrite N.Div0.div_div in E.
    change (64 * 64)%N with 4096%N in E. lia. }
  pose proof (N.div_mod' n 64) as H4.
  lia.
Qed.

Lemma octets_split a b c :
  (octets a b c < 16777216
   /\ octets a b c / 65536 = Byte.to_N a
   /\ octets a b c / 256 mod 256 = Byte.to_N b
   /\ octets a b c mod 256 = Byte.to_N c)%N.
Proof.
  unfold octets.
  pose proof (to_N_lt a). pose proof (to_N_lt b). pose proof (to_N_lt c).
  generalize dependent (Byte.to_N a). generalize dependent (Byte.to_N b).
  generalize dependent (Byte.to_N c).
  intros C HC B HB A HA.
  assert (Hdiv : ((A * 65536 + B * 256 + C) / 256 = A * 256 + B)%N).
  { symmetry. apply (N.div_unique _ _ _ C); lia. }
  split; [lia|]. split; [|split].
  - symmetry. apply (N.div_unique _ _ _ (B * 256 + C)); lia.
  - rewrite Hdiv. symmetry. apply (N.mod_unique _ _ A); lia.
  - symmetry. apply (N.mod_unique _ _ (A * 256 + B)); lia.
Qed.

Lemma sextet_mod n : sextet n = sextet (n mod 64).
Proof. unfold sextet. now rewrite N.Div0.mod_mod. Qed.

Lemma unsextet_sextet_mod n :
  unsextet (sextet n) = Some (n mod 64)%N /\ Ascii.eqb (sextet n) "=" = false.
Proof.
  rewrite sextet_mod. apply unsextet_sextet. apply N.mod_lt. discriminate.
Qed.

Lemma sextets_prefixes (n : N) :
  (n < 16777216)%N ->
  ((n / 262144 mod 64) * 64 + n / 4096 mod 64 = n / 4096
   /\ (n / 262144 mod 64) * 4096 + (n / 4096 mod 64) * 64 + n / 64 mod 64 = n / 64)%N.
Proof.
  intros Hn. pose proof (sextets_recombine n Hn) as Hr.
  assert (H3 : (n / 64 mod 64 < 64)%N) by (apply N.mod_lt; discriminate).
  assert (H4 : (n mod 64 < 64)%N) by (apply N.mod_lt; discriminate).
  split.
  - apply (N.div_unique _ _ _ ((n / 64 mod 64) * 64 + n mod 64)); lia.
  - apply (N.div_unique _ _ _ (n mod 64)); lia.
Qed.

Lemma unbase64_base64 bytes : unbase64 (base64 bytes) = Some bytes.
Proof.
  assert (Hstep : forall k bytes, (length bytes <= k)%nat ->
                                  unbase64 (base64 bytes) = Some bytes).
  { clear bytes. intros k. induction k as [|k IH]; intros bytes Hlen.
    - destruct bytes; [reflexivity | simpl in Hlen; lia].
    - destruct bytes as [|a [|b [|c rest]]]; [reflexivity | | |].
      + cbn [base64 unbase64].
        destruct (octets_split a x00 x00) as (Hlt & Ha & _ & _).
        set (n := octets a x00 x00) in *.
        destruct (unsextet_sextet_mod (n / 262144)) as [-> _].
        destruct (unsextet_sextet_mod (n / 4096)) as [-> _].
        cbn. destruct (sextets_prefixes n Hlt) as [-> _].
        rewrite N.Div0.div_div. change (4096 * 16)%N with 65536%N.
        rewrite Ha, Byte.of_to_N. reflexivity.
      + cbn [base64 unbase64].
        destruct (octets_split a b x00) as (Hlt & Ha & Hb & _).
        set (n := octets a b x00) in *.
        destruct (unsextet_sextet_mod (n / 262144)) as [-> _].
        destruct (unsextet_sextet_mod (n / 4096)) as [-> _].
        destruct (unsextet_sextet_mod (n / 64)) as [-> ->].
        cbn. destruct (sextets_prefixes n Hlt) as [_ ->].
        rewrite !N.Div0.div_div. change (64 * 1024)%N with 65536%N.
        change (64 * 4)%N with 256%N.
        rewrite Ha, Hb, !Byte.of_to_N. reflexivity.
      + cbn [base64 unbase64].
        destruct (octets_split a b c) as (Hlt & Ha & Hb & Hc).
        set (n := octets a b c) in *.
        destruct (unsextet_sextet_mod (n / 262144)) as [-> _].
        destruct (unsextet_sextet_mod (n / 4096)) as [-> _].
        destruct (unsextet_sextet_mod (n / 64)) as [-> ->].
        destruct (unsextet_sextet_mod n) as [-> ->].
        cbn. rewrite (sextets_recombine n Hlt).
        rewrite Ha, Hb, Hc, !Byte.of_to_N. cbn.
        rewrite IH by (simpl in Hlen; lia). reflexivity. }
  eauto.
Qed.

End Base64.

(** ** Objects and [Object.assign] *)

Section Objects.

Lemma arrayIndex_canonical (k : string) (n : N) :
  arrayIndex k = Some n -> k = decimal n.
Proof.
  unfold arrayIndex. destruct (NilZero.uint_of_string k) as [u|]; [|discriminate].
  cbv zeta. destruct (String.eqb (decimal (N.of_uint u)) k) eqn:He; [|discriminate].
  destruct (N.of_uint u <? 4294967295)%N; [|discriminate].
  simpl. intros [= <-]. apply String.eqb_eq in He. now symmetry.
Qed.

Lemma assoc_keys k (fields : list (string * JSONValue)) :
  assoc k fields = None <-> k ∉ fields.*1.
Proof.
  induction fields as [|[k0 v0] rest IH]; simpl.
  - split; [intros _; apply not_elem_of_nil | reflexivity].
  - rewrite not_elem_of_cons. destruct (String.eqb k k0) eqn:Hk.
    + apply String.eqb_eq in Hk. split; [discriminate | intros [? _]; contradiction].
    + apply String.eqb_neq in Hk. rewrite IH. tauto.
Qed.

Lemma assoc_replaceField k k' v fields :
  assoc k (replaceField k' v fields)
  = if String.eqb k k'
    then match assoc k' fields with Some _ => Some v | None => None end
    else assoc k fields.
Proof.
  induction fields as [|[k0 v0] rest IH]; simpl.
  - now destruct (String.eqb k k').
  - destruct (String.eqb k' k0) eqn:Hk'; simpl.
    + apply String.eqb_eq in Hk'. subst k0.
      destruct (String.eqb k k'); reflexivity.
    + destruct (String.eqb k k0) eqn:Hk0.
      * apply String.eqb_eq in Hk0. subst k0.
        rewrite String.eqb_sym, Hk'. reflexivity.
      * exact IH.
Qed.

Lemma assoc_insertIndex k k' n v fields :
  assoc k' fields = None ->
  assoc k (insertIndex n k' v fields)
  = if String.eqb k k' then Some v else assoc k fields.
Proof.
  induction fields as [|[k0 v0] rest IH]; simpl; [reflexivity|].
  destruct (String.eqb k' k0) eqn:Hk'; [discriminate|]. intros Hfresh.
  destruct (arrayIndex k0) as [n0|]; [destruct (n0 <? n)%N|]; simpl;
    try reflexivity.
  rewrite (IH Hfresh). destruct (String.eqb k k0) eqn:Hk0; [|reflexivity].
  apply String.eqb_eq in Hk0. subst k0.
  rewrite String.eqb_sym, Hk'. reflexivity.
Qed.

Lemma assoc_snoc k k' v fields :
  assoc k (fields ++ [(k', v)])
  = match assoc k fields with
    | Some x => Some x
    | None => if String.eqb k k' then Some v else None
    end.
Proof.
  induction fields as [|[k0 v0] rest IH]; simpl; [reflexivity|].
  now destruct (String.eqb k k0).
Qed.

Lemma assoc_setField_other k k' v fields :
  k <> k' -> assoc k (setField k' v fields) = assoc k fields.
Proof.
  intros Hne. apply String.eqb_neq in Hne. unfold setField.
  destruct (assoc k' fields) eqn:Hown.
  - now rewrite assoc_replaceField, Hne.
  - destruct (String.eqb k' "__proto__"); [reflexivity|].
    destruct (arrayIndex k') as [n|].
    + now rewrite assoc_insertIndex, Hne.
    + rewrite assoc_snoc, Hne. now destruct (assoc k fields).
Qed.

Lemma assoc_setField_same k v fields :
  k <> "__proto__" -> assoc k (setField k v fields) = Some v.
Proof.
  intros Hne. apply String.eqb_neq in Hne. unfold setField.
  destruct (assoc k fields) eqn:Hown.
  - now rewrite assoc_replaceField, String.eqb_refl, Hown.
  - rewrite Hne. destruct (arrayIndex k) as [n|].
    + now rewrite assoc_insertIndex, String.eqb_refl.
    + now rewrite assoc_snoc, Hown, String.eqb_refl.
Qed.

Lemma assoc_setField_proto k v fields :
  assoc "__proto__" fields = None ->
  assoc "__proto__" (setField k v fields) = None.
Proof.
  intros Hnone. destruct (decide (k = "__proto__")) as [->|Hne].
  - unfold setField. now rewrite Hnone.
  - rewrite assoc_setField_other by congruence. exact Hnone.
Qed.

Lemma assoc_objectAssign_other target source k :
  k ∉ source.*1 -> assoc k (objectAssign target source) = assoc k target.
Proof.
  unfold objectAssign. revert target.
  induction source as [|[k0 v0] rest IH]; intros target Hk; simpl; [reflexivity|].
  simpl in Hk. apply not_elem_of_cons in Hk as [Hne Hrest].
  rewrite IH by exact Hrest. now apply assoc_setField_other.
Qed.

Lemma assoc_objectAssign_own target source k v :
  NoDup source.*1 -> (k, v) ∈ source -> k <> "__proto__" ->
  assoc k (objectAssign target source) = Some v.
Proof.
  unfold objectAssign. revert target.
  induction source as [|[k0 v0] rest IH]; intros target Hnd Hin Hne; simpl.
  - inversion Hin.
  - simpl in Hnd. apply NoDup_cons in Hnd as [Hfresh Hnd].
    apply elem_of_cons in Hin as [[= -> ->] | Hin].
    + change (assoc k0 (objectAssign (setField k0 v0 target) rest) = Some v0).
      rewrite assoc_objectAssign_other by exact Hfresh.
      now apply assoc_setField_same.
    + now apply IH.
Qed.

Lemma assoc_objectAssign_proto target source :
  assoc "__proto__" target = None ->
  assoc "__proto__" (objectAssign target source) = None.
Proof.
  unfold objectAssign. revert target.
  induction source as [|[k0 v0] rest IH]; intros target Hnone; simpl; [exact Hnone|].
  apply IH. now apply assoc_setField_proto.
Qed.

End Objects.

(** ** The transcription translator *)

Module TranscriptionProps.
Import Transcription.

Lemma mapC_isSegment items segs :
  Forall2 isSegment items segs -> mapC segmentOf items = Normal segs.
Proof.
  intros Hf. apply mapC_Forall2.
  induction Hf as [|item s items segs (fields & -> & Ht & Hs & He) _ IH];
    constructor; [|exact IH].
  destruct s as [t b e]. simpl in Ht, Hs, He. subst. reflexivity.
Qed.

Lemma extractSegments_absent fields :
  assoc "segments" fields = None -> extractSegments (JObject fields) = Normal [].
Proof. intros Hs. unfold extractSegments. simpl. now rewrite Hs. Qed.

Lemma extractSegments_present fields items segs :
  assoc "segments" fields = Some (JArray items) ->
  Forall2 isSegment items segs ->
  extractSegments (JObject fields) = Normal segs.
Proof.
  intros Hs Hf. unfold extractSegments. simpl. rewrite Hs. simpl.
  now rewrite (mapC_isSegment _ _ Hf).
Qed.

Section WithPlatform.
Context `{Platform}.

Lemma doGenerate_run self options w h :
  headers (config self) w = Normal h ->
  doGenerate self options w
  = match default globalFetch (fetch (config self)) (request self options h) with
    | Normal response =>
        interpret self options response (recordCall (request self options h) w)
    | Throw e => (Throw e, recordCall (request self options h) w)
    end.
Proof.
  intros Hh. unfold doGenerate, mbind, M_bind, observe, callFetch.
  rewrite Hh. reflexivity.
Qed.

Lemma doGenerate_headers_fail self options w e :
  headers (config self) w = Throw e -> doGenerate self options w = (Throw e, w).
Proof.
  intros Hh. unfold doGenerate, mbind, M_bind, observe. now rewrite Hh.
Qed.

Lemma interpret_object self options response fields segs w :
  ok response = true ->
  resp_json response = Normal (JObject fields) ->
  extractSegments (JObject fields) = Normal segs ->
  interpret self options response w
  = (Normal {| text := coalesce (assoc "text" fields) (JString "");
               segments := segs;
               language := assoc "language" fields;
               durationInSeconds := assoc "duration" fields;
               warnings := [];
               request_body := bodyString self options;
               response_timestamp := now w;
               response_modelId := modelId self;
               response_headers := collectHeaders (resp_headers response);
               response_body := JObject fields |}, w).
Proof.
  intros Hok Hj Hs. unfold interpret. rewrite Hok. simpl.
  unfold mbind, M_bind, liftC. rewrite Hj, Hs. reflexivity.
Qed.

Lemma interpret_world self options response w :
  (interpret self options response w).2 = w.
Proof.
  unfold interpret. destruct (ok response); simpl; [|reflexivity].
  unfold mbind, M_bind, liftC, newDate, mret, M_ret.
  destruct (resp_json response) as [body|e]; [|reflexivity].
  destruct (extractSegments body) as [segs|e]; [|reflexivity].
  destruct (getProp body "text") as [t|e]; [|reflexivity].
  destruct (getProp body "language") as [l|e]; [|reflexivity].
  destruct (getProp body "duration") as [d|e]; reflexivity.
Qed.

Lemma interpret_request_body self options response w r w' :
  interpret self options response w = (Normal r, w') ->
  request_body r = bodyString self options.
Proof.
  unfold interpret. destruct (ok response); simpl; [|discriminate].
  unfold mbind, M_bind, liftC, newDate, mret, M_ret.
  destruct (resp_json response) as [body|e]; [|discriminate].
  destruct (extractSegments body) as [segs|e]; [|discriminate].
  destruct (getProp body "text") as [t|e]; [|discriminate].
  destruct (getProp body "language") as [l|e]; [|discriminate].
  destruct (getProp body "duration") as [d|e]; [|discriminate].
  intros [= <- _]. reflexivity.
Qed.

End WithPlatform.

End TranscriptionProps.

Module TranscriptionClaims.
Import Transcription TranscriptionProps.

(** C8, as stated, does not hold in one respect: the [audio] field of the
    wire body is not always a string.  The options bag is assigned over the
    base fields, so a bag that itself has an [audio] key replaces the string
    with whatever it carries, here the number 5. *)
Lemma wire_audio_is_what_the_bag_says :
  ~ (forall (self : ScxTranscriptionModel) (options : CallOptions),
       exists s, assoc "audio" (requestBody self options) = Some (JString s)).
Proof.
  intros Hclaim.
  destruct (Hclaim (Doubles.transcriptionModel (Doubles.replying 200 "{}" (JObject [])))
                   (Doubles.transcribe (Textual "UklGRg==") (Some [("audio", JNumber 5)])))
    as [s Hs].
  vm_compute in Hs. discriminate Hs.
Qed.

Section WithPlatform.
Context `{Platform}.

(** C7: on a successful response whose body is an object, [doGenerate]
    rebuilds the segments in order ([start] and [end] becoming [startSecond]
    and [endSecond], the text kept), yields no segment when [segments] is
    missing and the empty string when [text] is missing, without failing, and
    hands on [language] and [duration] as they are, [undefined] when
    missing. *)
Theorem doGenerate_maps_response self options w h response fields segs :
  headers (config self) w = Normal h ->
  default globalFetch (fetch (config self)) (request self options h)
    = Normal response ->
  ok response = true ->
  resp_json response = Normal (JObject fields) ->
  (assoc "segments" fields = None /\ segs = [])
  \/ (exists items, assoc "segments" fields = Some (JArray items)
                    /\ Forall2 isSegment items segs) ->
  exists r,
    (doGenerate self options w).1 = Normal r
    /\ segments r = segs
    /\ (forall t, present (assoc "text" fields) t -> text r = t)
    /\ (absent (assoc "text" fields) -> text r = JString "")
    /\ language r = assoc "language" fields
    /\ durationInSeconds r = assoc "duration" fields.
Proof.
  intros Hh Hf Hok Hj Hsegs.
  assert (Hs : extractSegments (JObject fields) = Normal segs).
  { destruct Hsegs as [[Hnone ->] | (items & Hsome & Hitems)].
    - now apply extractSegments_absent.
    - now apply (extractSegments_present _ items). }
  rewrite (doGenerate_run _ _ _ _ Hh), Hf.
  rewrite (interpret_object _ _ _ _ _ _ Hok Hj Hs).
  eexists. split; [reflexivity|]. simpl.
  split; [reflexivity|]. split; [|split; [|split; reflexivity]].
  - intros t [-> Hnn]. destruct t; try reflexivity. congruence.
  - intros [-> | ->]; reflexivity.
Qed.

(** C8 (amended): binary audio is encoded as base64 text (a text that decodes
    back to the same octets) and textual audio is taken as it is, so the base
    [audio] field is always a string; every key
    of the caller's [scx] options bag other than [__proto__] is then assigned
    into the wire body,
    replacing [model], [audio] or [media_type] when the names collide (so the
    wire body's [audio] is that string unless the bag has an [audio] key of
    its own) and leaving every other field as it was; a [__proto__] key of the
    bag is handed to the prototype's setter, so the wire body never has a
    field of that name; and the [request.body]
    returned is the very string that was sent.  The bag is an object, so each
    of its keys occurs once ([NoDup]). *)
Theorem doGenerate_wire_body self options w h :
  headers (config self) w = Normal h ->
  (forall bytes, audio options = Binary bytes ->
     assoc "audio" (baseBody self options) = Some (JString (base64 bytes))
     /\ unbase64 (base64 bytes) = Some bytes)
  /\ (forall s, audio options = Textual s ->
        assoc "audio" (baseBody self options) = Some (JString s))
  /\ (scxOptions options = None ->
        requestBody self options = baseBody self options)
  /\ (forall scx, scxOptions options = Some scx -> NoDup scx.*1 ->
        (forall k v, (k, v) ∈ scx -> k <> "__proto__" ->
                     assoc k (requestBody self options) = Some v)
        /\ (forall k, k ∉ scx.*1 ->
                      assoc k (requestBody self options)
                      = assoc k (baseBody self options)))
  /\ assoc "__proto__" (requestBody self options) = None
  /\ (exists req,
        calls (doGenerate self options w).2 = calls w ++ [req]
        /\ req_body req = JSON_stringify (JObject (requestBody self options))
        /\ forall r, (doGenerate self options w).1 = Normal r ->
                     request_body r = req_body req).
Proof.
  intros Hh.
  split; [|split; [|split; [|split; [|split]]]].
  - intros bytes Ha. split; [|apply unbase64_base64].
    unfold baseBody. simpl. now rewrite Ha.
  - intros s Ha. unfold baseBody. simpl. now rewrite Ha.
  - intros Hnone. unfold requestBody. now rewrite Hnone.
  - intros scx Hsome Hnd. unfold requestBody. rewrite Hsome. split.
    + intros k v Hin Hk. now apply assoc_objectAssign_own.
    + intros k Hout. now apply assoc_objectAssign_other.
  - unfold requestBody. destruct (scxOptions options) as [scx|]; [|reflexivity].
    now apply assoc_objectAssign_proto.
  - exists (request self options h).
    rewrite (doGenerate_run _ _ _ _ Hh).
    destruct (default globalFetch (fetch (config self)) (request self options h))
      as [response|e]; simpl.
    + rewrite interpret_world. simpl. split; [reflexivity|].
      split; [reflexivity|].
      intros r Hr.
      destruct (interpret self options response
                  (recordCall (request self options h) w)) as [c w'] eqn:Hi.
      simpl in Hr. subst c.
      exact (interpret_request_body _ _ _ _ _ _ Hi).
    + split; [reflexivity|]. split; [reflexivity|]. discriminate.
Qed.

End WithPlatform.

(** C7 at work on the reply of the specification,
    [{"text":"hi","segments":[{"text":"hi","start":0,"end":1.2}]}]. *)
Lemma doGenerate_maps_response_witness :
  let reply := Doubles.replying 200 "{...}"
                 (JObject [("text", JString "hi");
                           ("segments",
                            JArray [JObject [("text", JString "hi");
                                             ("start", JNumber 0);
                                             ("end", JNumber 1.2)]])]) in
  exists r,
    (@doGenerate Doubles.offline (Doubles.transcriptionModel reply)
       (Doubles.transcribe (Textual "UklGRg==") None) Doubles.world).1 = Normal r
    /\ segments r = [{| seg_text := Some (JString "hi");
                        startSecond := Some (JNumber 0);
                        endSecond := Some (JNumber 1.2) |}]
    /\ text r = JString "hi"
    /\ language r = None
    /\ durationInSeconds r = None.
Proof.
  intros reply.
  destruct (@doGenerate_maps_response Doubles.offline
              (Doubles.transcriptionModel reply)
              (Doubles.transcribe (Textual "UklGRg==") None) Doubles.world
              _ reply _
              [{| seg_text := Some (JString "hi");
                  startSecond := Some (JNumber 0);
                  endSecond := Some (JNumber 1.2) |}]
              eq_refl eq_refl eq_refl eq_refl)
    as (r & Hr & Hsegs & Htext & _ & Hlang & Hdur).
  - right. eexists. split; [reflexivity|].
    repeat constructor. eexists. repeat split; reflexivity.
  - exists r. repeat split; auto.
    apply Htext. split; [reflexivity | discriminate].
Defined.

(** The amended C8 at work: three octets of audio, and a bag that sets
    [language], replaces [model] and has a [__proto__] key. *)
Lemma doGenerate_wire_body_witness :
  let self := Doubles.transcriptionModel (Doubles.replying 200 "{}" (JObject [])) in
  let options := Doubles.transcribe (Binary [x4d; x61; x6e])
                   (Some [("language", JString "en"); ("model", JString "other");
                          ("__proto__", JString "x")]) in
  assoc "audio" (requestBody self options) = Some (JString "TWFu")
  /\ assoc "model" (requestBody self options) = Some (JString "other")
  /\ assoc "language" (requestBody self options) = Some (JString "en")
  /\ assoc "__proto__" (requestBody self options) = None.
Proof.
  intros self options.
  destruct (@doGenerate_wire_body Doubles.offline self options Doubles.world _ eq_refl)
    as (Hbinary & _ & _ & Hbag & Hproto & _).
  destruct (Hbag _ eq_refl) as (Hown & Hother).
  { apply (bool_decide_unpack _). vm_compute. exact I. }
  split; [|split; [|split]].
  - rewrite Hother; [exact (proj1 (Hbinary _ eq_refl))|].
    apply (bool_decide_unpack _). vm_compute. exact I.
  - apply Hown; [do 2 constructor | discriminate].
  - apply Hown; [constructor | discriminate].
  - exact Hproto.
Defined.

End TranscriptionClaims.

(** ** What both translators send, and how both fail *)

Module Outbound.

Section WithPlatform.
Context `{Platform}.

Lemma doEmbed_calls self options w h :
  EmbeddingV2.headers (EmbeddingV2.config self) w = Normal h ->
  calls (EmbeddingV2.doEmbed self options w).2
  = calls w ++ [EmbeddingV2.request self options h].
Proof.
  intros Hh. now rewrite (EmbeddingV2Props.doEmbed_run _ _ _ _ Hh).
Qed.

Lemma doGenerate_calls self options w h :
  Transcription.headers (Transcription.config self) w = Normal h ->
  calls (Transcription.doGenerate self options w).2
  = calls w ++ [Transcription.request self options h].
Proof.
  intros Hh. rewrite (TranscriptionProps.doGenerate_run _ _ _ _ Hh).
  destruct (default globalFetch (Transcription.fetch (Transcription.config self))
              (Transcription.request self options h)); [|reflexivity].
  now rewrite TranscriptionProps.interpret_world.
Qed.


Lemma ok_false (r : Response) :
  ~ (200 <= status r <= 299)%N -> ok r = false.
Proof.
  intros Hr. unfold ok. apply andb_false_iff.
  destruct (N.leb_spec 200 (status r)); [|now left].
  destruct (N.leb_spec (status r) 299); [|now right].
  exfalso. apply Hr. split; assumption.
Qed.

(** C6: when the transport resolves with a status outside 200-299,
    [doEmbed], and likewise [doGenerate], fails with a single [Error] whose
    message contains the decimal status code and the response's body text
    verbatim, having issued exactly one HTTP call. *)
Theorem non_2xx_fails_with_status_and_body :
  (forall (self : EmbeddingV2.ScxEmbeddingModel) (options : EmbeddingV2.CallOptions)
          (w : World) (h : Headers) (response : Response),
     EmbeddingV2.headers (EmbeddingV2.config self) w = Normal h ->
     default globalFetch (EmbeddingV2.fetch (EmbeddingV2.config self))
       (EmbeddingV2.request self options h) = Normal response ->
     ~ (200 <= status response <= 299)%N ->
     exists message w',
       EmbeddingV2.doEmbed self options w = (Throw (Error message), w')
       /\ contains message (decimal (status response))
       /\ contains message (resp_text response)
       /\ calls w' = calls w ++ [EmbeddingV2.request self options h])
  /\ (forall (self : Transcription.ScxTranscriptionModel)
             (options : Transcription.CallOptions)
             (w : World) (h : Headers) (response : Response),
        Transcription.headers (Transcription.config self) w = Normal h ->
        default globalFetch (Transcription.fetch (Transcription.config self))
          (Transcription.request self options h) = Normal response ->
        ~ (200 <= status response <= 299)%N ->
        exists message w',
          Transcription.doGenerate self options w = (Throw (Error message), w')
          /\ contains message (decimal (status response))
          /\ contains message (resp_text response)
          /\ calls w' = calls w ++ [Transcription.request self options h]).
Proof.
  split.
  - intros self options w h response Hh Hf Hstatus. apply ok_false in Hstatus.
    eexists _, _.
    rewrite (EmbeddingV2Props.doEmbed_run _ _ _ _ Hh), Hf. simpl.
    unfold EmbeddingV2.interpret. rewrite Hstatus. simpl.
    split; [reflexivity|]. split; [apply contains_middle|].
    split; [|reflexivity].
    rewrite <- string_app_assoc, <- string_app_assoc. apply contains_end.
  - intros self options w h response Hh Hf Hstatus. apply ok_false in Hstatus.
    eexists _, _.
    rewrite (TranscriptionProps.doGenerate_run _ _ _ _ Hh), Hf.
    unfold Transcription.interpret. rewrite Hstatus. simpl.
    split; [reflexivity|]. split; [apply contains_middle|].
    split; [|reflexivity].
    rewrite <- string_app_assoc, <- string_app_assoc. apply contains_end.
Qed.

End WithPlatform.


(** C6 at work on the reply of the specification: status 429 with the body
    [rate limited]. *)
Lemma non_2xx_fails_with_status_and_body_witness :
  let reply := Doubles.replyingText 429 "rate limited" in
  (exists message w',
     @EmbeddingV2.doEmbed Doubles.offline (Doubles.embeddingModel reply)
       (Doubles.embed ["a"]) Doubles.world = (Throw (Error message), w')
     /\ contains message "429"
     /\ contains message "rate limited"
     /\ length (calls w') = 1)
  /\ (exists message w',
        @Transcription.doGenerate Doubles.offline (Doubles.transcriptionModel reply)
          (Doubles.transcribe (Transcription.Textual "UklGRg==") None) Doubles.world
        = (Throw (Error message), w')
        /\ contains message "429"
        /\ contains message "rate limited"
        /\ length (calls w') = 1).
Proof.
  intros reply.
  assert (Hstatus : ~ (200 <= status reply <= 299)%N) by (simpl; lia).
  destruct (@non_2xx_fails_with_status_and_body Doubles.offline)
    as [Hembed Htranscribe].
  destruct (Hembed (Doubles.embeddingModel reply) (Doubles.embed ["a"])
              Doubles.world _ reply eq_refl eq_refl Hstatus)
    as (m & w' & Hrun & Hs & Hb & Hc).
  destruct (Htranscribe (Doubles.transcriptionModel reply)
              (Doubles.transcribe (Transcription.Textual "UklGRg==") None)
              Doubles.world _ reply eq_refl eq_refl Hstatus)
    as (m' & w'' & Hrun' & Hs' & Hb' & Hc').
  split.
  - exists m, w'. repeat split; [exact Hrun | exact Hs | exact Hb |].
    rewrite Hc. reflexivity.
  - exists m', w''. repeat split; [exact Hrun' | exact Hs' | exact Hb' |].
    rewrite Hc'. reflexivity.
Defined.

End Outbound.

(** ** The provider façade *)

Module ProviderProps.
Import Provider.

Lemma createScx_key_missing options w e :
  getApiKey options w = Throw e -> createScx options w = (Throw e, w).
Proof.
  intros Hk. unfold createScx, mbind, M_bind, observe. now rewrite Hk.
Qed.


(** The key the environment holds when a request is made is the key the
    embedding and transcription translators send. *)
Lemma getHeaders_follows_environment options w key :
  apiKey options = None ->
  env w !! "SCX_API_KEY" = Some key ->
  default ∅ (headers options) !! "Authorization" = None ->
  exists h, getHeaders options w = Normal h
            /\ h !! "Authorization" = Some ("Bearer " +:+ key).
Proof.
  intros Hnone Henv Hfree.
  unfold getHeaders, getApiKey, loadApiKey, getenv. rewrite Hnone. simpl.
  rewrite Henv. simpl. eexists. split; [reflexivity|].
  rewrite lookup_union, Hfree, (left_id None _). apply lookup_singleton_eq.
Qed.

(** C1, at the input where the code departs from it: no [apiKey] setting and
    no [SCX_API_KEY] in the environment.  [createScx] evaluates [getApiKey()]
    while it builds the chat delegate, so the provider is never constructed:
    the call itself throws, before any request exists. *)
Theorem createScx_without_key_fails_at_construction :
  exists message,
    createScx noSettings Doubles.world
    = (Throw (LoadAPIKeyError message), Doubles.world).
Proof. eexists. reflexivity. Qed.

(** After a rotation of [SCX_API_KEY], the embedding translator sends the new
    key while the chat model still holds the key of construction time. *)
Example rotation_reaches_embedding_not_chat :
  exists p,
    (createScx noSettings (Doubles.withKey "old")).1 = Normal p
    /\ (EmbeddingV2.headers (EmbeddingV2.config (embedding p "E5-Mistral-7B-Instruct"))
          (Doubles.withKey "new") ≫= fun h => Normal (h !! "Authorization"))
       = Normal (Some "Bearer new")
    /\ oa_apiKey (lm_settings (chat p "DeepSeek-V3.1")) = Some "old".
Proof. eexists. repeat split; reflexivity. Qed.



End ProviderProps.

(** ** The two generations of the embedding translator *)

Module Generations.

Lemma extractUsage_agree body :
  EmbeddingV3.extractUsage body
  = fmap (M := completion) upgradeUsage (EmbeddingV2.extractUsage body).
Proof.
  unfold EmbeddingV3.extractUsage, EmbeddingV2.extractUsage.
  destruct body as [| b | n | s | items | fields]; try reflexivity.
  simpl. destruct (assoc "usage" fields) as [u|]; [|reflexivity].
  destruct (truthy (Some u)); [|reflexivity].
  destruct (getProp u "total_tokens") as [t|e]; [|reflexivity]. simpl.
  destruct (nullish t); simpl.
  - destruct (getProp u "prompt_tokens"); reflexivity.
  - reflexivity.
Qed.

Section WithPlatform.
Context `{Platform}.

(** C10: run on the same model, options and world, the V2 and the V3
    [doEmbed] end the same way.  When they fail they throw the same exception;
    when they succeed they return the same embeddings, the same usage and the
    same captured response headers, and the V3 result has in addition an
    empty [warnings] list and, as [response.body], the parsed body of the
    response.  Both leave the same world behind. *)
Theorem generations_agree (self : EmbeddingV2.ScxEmbeddingModel)
    (options : EmbeddingV2.CallOptions) (w : World) :
  match EmbeddingV2.doEmbed self options w,
        EmbeddingV3.doEmbed (upgradeModel self) (upgradeOptions options) w with
  | (Normal r2, w2), (Normal r3, w3) =>
      w2 = w3
      /\ EmbeddingV3.embeddings r3 = EmbeddingV2.embeddings r2
      /\ EmbeddingV3.tokens <$> EmbeddingV3.usage r3
         = EmbeddingV2.tokens <$> EmbeddingV2.usage r2
      /\ EmbeddingV3.response_headers r3 = EmbeddingV2.rawResponse_headers r2
      /\ EmbeddingV3.warnings r3 = []
      /\ exists h response,
           EmbeddingV2.headers (EmbeddingV2.config self) w = Normal h
           /\ default globalFetch (EmbeddingV2.fetch (EmbeddingV2.config self))
                (EmbeddingV2.request self options h) = Normal response
           /\ resp_json response = Normal (EmbeddingV3.response_body r3)
  | (Throw e2, w2), (Throw e3, w3) => e2 = e3 /\ w2 = w3
  | _, _ => False
  end.
Proof.
  unfold EmbeddingV2.doEmbed, EmbeddingV3.doEmbed, mbind, M_bind, observe,
    callFetch, liftC.
  change (EmbeddingV3.headers (EmbeddingV3.config (upgradeModel self)))
    with (EmbeddingV2.headers (EmbeddingV2.config self)).
  destruct (EmbeddingV2.headers (EmbeddingV2.config self) w) as [h|e] eqn:Hh;
    [|split; reflexivity].
  change (EmbeddingV3.request (upgradeModel self) (upgradeOptions options) h)
    with (EmbeddingV2.request self options h).
  change (EmbeddingV3.fetch (EmbeddingV3.config (upgradeModel self)))
    with (EmbeddingV2.fetch (EmbeddingV2.config self)).
  destruct (default globalFetch (EmbeddingV2.fetch (EmbeddingV2.config self))
              (EmbeddingV2.request self options h)) as [response|e] eqn:Hf;
    [|split; reflexivity].
  unfold EmbeddingV2.interpret, EmbeddingV3.interpret.
  destruct (ok response); simpl; [|split; reflexivity].
  destruct (resp_json response) as [body|e] eqn:Hj; simpl; [|split; reflexivity].
  change (EmbeddingV3.extractEmbeddings body)
    with (EmbeddingV2.extractEmbeddings body).
  destruct (EmbeddingV2.extractEmbeddings body) as [es|e]; simpl;
    [|split; reflexivity].
  rewrite extractUsage_agree.
  destruct (EmbeddingV2.extractUsage body) as [u|e]; simpl; [|split; reflexivity].
  repeat split; try reflexivity.
  - now destruct u.
  - exists h, response. repeat split; assumption.
Qed.

End WithPlatform.

End Generations.

(** ** The worked examples of the specification *)

Module Examples.

Example base64_rfc4648 :
  base64 [] = ""
  /\ base64 [x66] = "Zg=="
  /\ base64 [x66; x6f] = "Zm8="
  /\ base64 [x66; x6f; x6f] = "Zm9v"
  /\ base64 [x66; x6f; x6f; x62] = "Zm9vYg=="
  /\ base64 [x66; x6f; x6f; x62; x61] = "Zm9vYmE="
  /\ base64 [x66; x6f; x6f; x62; x61; x72] = "Zm9vYmFy"
  /\ base64 [xff; xfe; xfd; x00] = "//79AA==".
Proof. repeat split; reflexivity. Qed.

Example bare_array :
  let body := JArray [Doubles.entry [0.1; 0.2]%float; Doubles.entry [0.3; 0.4]%float] in
  EmbeddingV2.extractEmbeddings body
  = Normal [Some (Doubles.vec [0.1; 0.2]%float); Some (Doubles.vec [0.3; 0.4]%float)]
  /\ EmbeddingV2.extractUsage body = Normal None.
Proof. split; reflexivity. Qed.

Example wrapped_object :
  let body := JObject [("data", JArray [Doubles.entry [1; 2]%float]);
                       ("usage", JObject [("total_tokens", JNumber 5)])] in
  EmbeddingV2.extractEmbeddings body = Normal [Some (Doubles.vec [1; 2]%float)]
  /\ EmbeddingV2.extractUsage body
     = Normal (Some {| EmbeddingV2.tokens := JNumber 5 |}).
Proof. split; reflexivity. Qed.

Example prompt_tokens_only :
  EmbeddingV2.extractUsage
    (JObject [("usage", JObject [("prompt_tokens", JNumber 7)])])
  = Normal (Some {| EmbeddingV2.tokens := JNumber 7 |}).
Proof. reflexivity. Qed.

Example total_tokens_zero_is_kept :
  EmbeddingV2.extractUsage
    (JObject [("usage", JObject [("total_tokens", JNumber 0);
                                 ("prompt_tokens", JNumber 7)])])
  = Normal (Some {| EmbeddingV2.tokens := JNumber 0 |}).
Proof. reflexivity. Qed.

Example missing_segments :
  Transcription.extractSegments (JObject [("text", JString "hi")]) = Normal [].
Proof. reflexivity. Qed.

Example trailing_slash :
  Provider.resolveBaseURL
    {| Provider.baseURL := Some "https://example.test/v1/";
       Provider.apiKey := None; Provider.headers := None; Provider.fetch := None |}
  = "https://example.test/v1"
  /\ Provider.resolveBaseURL Provider.noSettings = "https://api.scx.ai/v1".
Proof. split; reflexivity. Qed.

(** Loading the module runs [createScx()]: without [SCX_API_KEY] in the
    environment the load itself throws. *)
Example module_load_needs_key :
  is_normal (Provider.scx Doubles.world).1 = false
  /\ is_normal (Provider.scx (Doubles.withKey "secret")).1 = true.
Proof. split; reflexivity. Qed.

(** With a key, the request of a provider-made embedding model goes to
    [/embeddings] under the resolved bearer token. *)
Example provider_made_request :
  let options := Doubles.keyed "secret" in
  let model := Provider.createEmbeddingModel options "E5-Mistral-7B-Instruct" in
  exists req,
    calls (@EmbeddingV2.doEmbed Doubles.offline model (Doubles.embed ["a"])
             Doubles.world).2 = [req]
    /\ url req = "https://api.scx.ai/v1/embeddings"
    /\ method req = "POST"
    /\ req_headers req !! "Authorization" = Some "Bearer secret"
    /\ req_headers req !! "Content-Type" = Some "application/json".
Proof. eexists. repeat split; reflexivity. Qed.

End Examples.

(** * Further properties of the code *)

(** ** Which replies the embedding translator can decode *)

Module EmbeddingDecoding.
Import EmbeddingV2 EmbeddingV2Props.

Lemma ok_true (r : Response) :
  ok r = true <-> (200 <= status r <= 299)%N.
Proof.
  unfold ok. rewrite andb_true_iff, !N.leb_le. reflexivity.
Qed.

Lemma getProp_normal d k : is_normal (getProp d k) = true <-> readable d.
Proof.
  unfold readable. destruct d; simpl; split; congruence.
Qed.

Lemma getProp_throws d k e : getProp d k = Throw e -> exists m, e = TypeError m.
Proof. destruct d; simpl; intros [= <-]; eauto. Qed.

Lemma mapC_normal {B} (f : JSONValue -> completion B) items :
  (forall d, is_normal (f d) = true <-> readable d) ->
  (exists ys, mapC f items = Normal ys) <-> Forall readable items.
Proof.
  intros Hf. induction items as [|d items IH]; simpl.
  - split; [constructor | eauto].
  - split.
    + intros [ys Hys]. destruct (f d) as [y|e] eqn:Hd; [|discriminate].
      destruct (mapC f items) as [ys'|e] eqn:Hrest; [|discriminate].
      constructor.
      * apply Hf. now rewrite Hd.
      * apply IH. eauto.
    + intros Hall. apply Forall_cons in Hall as [Hd Hrest].
      apply Hf in Hd. apply IH in Hrest as [ys Hys].
      destruct (f d) as [y|e]; [|discriminate]. rewrite Hys. eauto.
Qed.

Lemma mapC_throws {B} (f : JSONValue -> completion B) items e :
  (forall d e', f d = Throw e' -> exists m, e' = TypeError m) ->
  mapC f items = Throw e -> exists m, e = TypeError m.
Proof.
  intros Hf. induction items as [|d items IH]; simpl; [discriminate|].
  destruct (f d) as [y|e'] eqn:Hd.
  - destruct (mapC f items) as [ys|e'']; [discriminate|].
    intros [= <-]. now apply IH.
  - intros [= <-]. now apply (Hf d).
Qed.

Lemma optMap_normal {B} (f : JSONValue -> completion B) v :
  (forall d, is_normal (f d) = true <-> readable d) ->
  (exists ys, optMap v f = Normal ys) <-> listDecodable v.
Proof.
  intros Hf. unfold optMap, listDecodable.
  destruct v as [[| b | n | s | items | fields]|]; simpl.
  - split; [constructor | eauto].
  - split; [intros [ys Hys]; discriminate | intros []].
  - split; [intros [ys Hys]; discriminate | intros []].
  - split; [intros [ys Hys]; discriminate | intros []].
  - rewrite <- (mapC_normal f items Hf). split.
    + intros [ys Hys]. destruct (mapC f items) as [zs|e]; [eauto | discriminate].
    + intros [zs ->]. simpl. eauto.
  - split; [intros [ys Hys]; discriminate | intros []].
  - split; [constructor | eauto].
Qed.

Lemma optMap_throws {B} (f : JSONValue -> completion B) v e :
  (forall d e', f d = Throw e' -> exists m, e' = TypeError m) ->
  optMap v f = Throw e -> exists m, e = TypeError m.
Proof.
  intros Hf. unfold optMap, callMap.
  destruct v as [[| b | n | s | items | fields]|]; simpl;
    try discriminate; try (intros [= <-]; eauto).
  destruct (mapC f items) as [ys|e'] eqn:Hm; simpl; [discriminate|].
  intros [= <-]. exact (mapC_throws f items e' Hf Hm).
Qed.

Lemma extractEmbeddings_normal body :
  (exists es, extractEmbeddings body = Normal es) <-> embeddingsDecodable body.
Proof.
  unfold extractEmbeddings, embeddingsDecodable.
  destruct body as [| b | n | s | items | fields]; simpl.
  - split; [intros [es Hes]; discriminate | intros []].
  - split; [constructor | eauto].
  - split; [constructor | eauto].
  - split; [constructor | eauto].
  - apply (mapC_normal embeddingOf). intros d. apply getProp_normal.
  - rewrite <- (optMap_normal embeddingOf (assoc "data" fields))
      by (intros d; apply getProp_normal).
    split.
    + intros [es Hes].
      destruct (optMap (assoc "data" fields) embeddingOf) as [m|e];
        [eauto | discriminate].
    + intros [m ->]. simpl. eauto.
Qed.

Lemma extractEmbeddings_throws body e :
  extractEmbeddings body = Throw e -> exists m, e = TypeError m.
Proof.
  unfold extractEmbeddings.
  destruct body as [| b | n | s | items | fields]; simpl;
    try discriminate; try (intros [= <-]; eauto).
  - apply mapC_throws. intros d e'. apply getProp_throws.
  - destruct (optMap (assoc "data" fields) embeddingOf) as [m|e'] eqn:Hm; simpl;
      [discriminate|].
    intros [= <-]. apply (optMap_throws embeddingOf _ _ (fun d e' => getProp_throws d _ e') Hm).
Qed.

Lemma embeddingsDecodable_not_null body : embeddingsDecodable body -> body <> JNull.
Proof. destruct body; simpl; [intros [] | discriminate..]. Qed.

Section WithPlatform.
Context `{Platform}.

(** [doEmbed] succeeds exactly when the header thunk returns, the transport
    resolves, the status is in 200-299, the body parses as JSON, and the parsed
    value is one the extraction goes through: an array without [null]
    elements, or a non-[null] value whose [data] is missing, [null], or such
    an array. *)
Theorem doEmbed_succeeds_exactly_when self options w :
  (exists r w', doEmbed self options w = (Normal r, w'))
  <-> exists h response body,
        headers (config self) w = Normal h
        /\ default globalFetch (fetch (config self)) (request self options h)
           = Normal response
        /\ (200 <= status response <= 299)%N
        /\ resp_json response = Normal body
        /\ embeddingsDecodable body.
Proof.
  split.
  - intros (r & w' & Hrun).
    destruct (doEmbed_success _ _ _ _ _ Hrun)
      as (h & response & body & Hh & Hf & Hok & Hj & He & _).
    exists h, response, body. repeat split; auto; try (now apply ok_true).
    apply extractEmbeddings_normal. eauto.
  - intros (h & response & body & Hh & Hf & Hstatus & Hj & Hd).
    apply ok_true in Hstatus.
    destruct (extractUsage_total body (embeddingsDecodable_not_null _ Hd)) as [u Hu].
    apply extractEmbeddings_normal in Hd as [es Hes].
    eexists _, _. exact (doEmbed_interpret _ _ _ _ _ _ _ _ Hh Hf Hstatus Hj Hes Hu).
Qed.

(** A 2xx reply whose parsed body is not of a shape the extraction goes
    through makes [doEmbed] fail with a [TypeError], after its one HTTP
    call. *)
Theorem doEmbed_malformed_shape_is_a_TypeError self options w h response body :
  headers (config self) w = Normal h ->
  default globalFetch (fetch (config self)) (request self options h)
    = Normal response ->
  (200 <= status response <= 299)%N ->
  resp_json response = Normal body ->
  ~ embeddingsDecodable body ->
  exists m,
    doEmbed self options w
    = (Throw (TypeError m), recordCall (request self options h) w).
Proof.
  intros Hh Hf Hstatus Hj Hbad. apply ok_true in Hstatus.
  rewrite (doEmbed_run _ _ _ _ Hh), Hf. simpl.
  unfold interpret. rewrite Hstatus, Hj. simpl.
  destruct (extractEmbeddings body) as [es|e] eqn:He.
  - exfalso. apply Hbad. apply extractEmbeddings_normal. eauto.
  - destruct (extractEmbeddings_throws _ _ He) as [m ->]. eauto.
Qed.

End WithPlatform.

Lemma doEmbed_malformed_shape_is_a_TypeError_witness :
  let reply := Doubles.replying 200 "{...}" (JObject [("data", JString "oops")]) in
  exists m w',
    @doEmbed Doubles.offline (Doubles.embeddingModel reply) (Doubles.embed ["a"])
      Doubles.world = (Throw (TypeError m), w').
Proof.
  intros reply.
  destruct (@doEmbed_malformed_shape_is_a_TypeError Doubles.offline
              (Doubles.embeddingModel reply) (Doubles.embed ["a"]) Doubles.world
              _ reply (JObject [("data", JString "oops")]) eq_refl eq_refl)
    as [m Hm].
  - simpl. lia.
  - reflexivity.
  - simpl. intros [].
  - eauto.
Defined.

End EmbeddingDecoding.

(** ** Which replies the transcription translator can decode *)

Module TranscriptionDecoding.
Import Transcription TranscriptionProps EmbeddingDecoding.

Lemma getProp_readable body k : readable body -> exists v, getProp body k = Normal v.
Proof.
  intros Hr. apply (getProp_normal body k) in Hr.
  destruct (getProp body k); [eauto | discriminate].
Qed.

Lemma segmentOf_normal d : is_normal (segmentOf d) = true <-> readable d.
Proof.
  unfold readable, segmentOf. destruct d; simpl; split; congruence.
Qed.

Lemma segmentOf_throws d e : segmentOf d = Throw e -> exists m, e = TypeError m.
Proof. unfold segmentOf. destruct d; simpl; intros [= <-]; eauto. Qed.

Lemma extractSegments_normal body :
  (exists segs, extractSegments body = Normal segs) <-> segmentsDecodable body.
Proof.
  unfold extractSegments, segmentsDecodable.
  destruct body as [| b | n | s | items | fields]; simpl.
  - split; [intros [segs Hs]; discriminate | intros []].
  - split; [constructor | eauto].
  - split; [constructor | eauto].
  - split; [constructor | eauto].
  - split; [constructor | eauto].
  - rewrite <- (optMap_normal segmentOf (assoc "segments" fields) segmentOf_normal).
    split.
    + intros [segs Hs].
      destruct (optMap (assoc "segments" fields) segmentOf) as [m|e];
        [eauto | discriminate].
    + intros [m ->]. simpl. eauto.
Qed.

Lemma extractSegments_throws body e :
  extractSegments body = Throw e -> exists m, e = TypeError m.
Proof.
  unfold extractSegments.
  destruct body as [| b | n | s | items | fields]; simpl;
    try discriminate; try (intros [= <-]; eauto).
  destruct (optMap (assoc "segments" fields) segmentOf) as [m|e'] eqn:Hm; simpl;
    [discriminate|].
  intros [= <-]. exact (optMap_throws segmentOf _ _ segmentOf_throws Hm).
Qed.

Lemma segmentsDecodable_readable body : segmentsDecodable body -> readable body.
Proof. unfold readable. destruct body; simpl; [intros [] | discriminate..]. Qed.

Section WithPlatform.
Context `{Platform}.

Lemma interpret_decoded self options response body segs w :
  ok response = true ->
  resp_json response = Normal body ->
  extractSegments body = Normal segs ->
  exists t l d,
    getProp body "text" = Normal t
    /\ getProp body "language" = Normal l
    /\ getProp body "duration" = Normal d
    /\ interpret self options response w
       = (Normal {| text := coalesce t (JString "");
                    segments := segs;
                    language := l;
                    durationInSeconds := d;
                    warnings := [];
                    request_body := bodyString self options;
                    response_timestamp := now w;
                    response_modelId := modelId self;
                    response_headers := collectHeaders (resp_headers response);
                    response_body := body |}, w).
Proof.
  intros Hok Hj Hs.
  assert (Hr : readable body).
  { apply segmentsDecodable_readable, extractSegments_normal. eauto. }
  destruct (getProp_readable body "text" Hr) as [t Ht].
  destruct (getProp_readable body "language" Hr) as [l Hl].
  destruct (getProp_readable body "duration" Hr) as [d Hd].
  exists t, l, d. repeat split; auto.
  unfold interpret. rewrite Hok. simpl.
  unfold mbind, M_bind, liftC. rewrite Hj, Hs, Ht, Hl, Hd. reflexivity.
Qed.

Lemma doGenerate_success self options w r w' :
  doGenerate self options w = (Normal r, w') ->
  exists h response body,
    headers (config self) w = Normal h
    /\ default globalFetch (fetch (config self)) (request self options h)
       = Normal response
    /\ ok response = true
    /\ resp_json response = Normal body
    /\ extractSegments body = Normal (segments r)
    /\ response_body r = body
    /\ response_headers r = collectHeaders (resp_headers response)
    /\ response_modelId r = modelId self
    /\ response_timestamp r = now w
    /\ warnings r = []
    /\ w' = recordCall (request self options h) w.
Proof.
  destruct (headers (config self) w) as [h|e] eqn:Hh.
  - rewrite (doGenerate_run _ _ _ _ Hh).
    destruct (default globalFetch (fetch (config self)) (request self options h))
      as [response|e] eqn:Hf; [|discriminate].
    unfold interpret. destruct (ok response) eqn:Hok; simpl; [|discriminate].
    unfold mbind, M_bind, liftC, newDate, mret, M_ret.
    destruct (resp_json response) as [body|e] eqn:Hj; [|discriminate].
    destruct (extractSegments body) as [segs|e] eqn:Hs; [|discriminate].
    destruct (getProp body "text") as [t|e]; [|discriminate].
    destruct (getProp body "language") as [l|e]; [|discriminate].
    destruct (getProp body "duration") as [d|e]; [|discriminate].
    intros [= <- <-]. exists h, response, body. simpl. repeat split; auto.
  - rewrite (doGenerate_headers_fail _ _ _ _ Hh). discriminate.
Qed.

(** [doGenerate] succeeds exactly when the header thunk returns, the
    transport resolves, the status is in 200-299, the body parses as JSON, and
    the parsed value is not [null] and has a [segments] that is missing,
    [null], or an array without [null] elements. *)
Theorem doGenerate_succeeds_exactly_when self options w :
  (exists r w', doGenerate self options w = (Normal r, w'))
  <-> exists h response body,
        headers (config self) w = Normal h
        /\ default globalFetch (fetch (config self)) (request self options h)
           = Normal response
        /\ (200 <= status response <= 299)%N
        /\ resp_json response = Normal body
        /\ segmentsDecodable body.
Proof.
  split.
  - intros (r & w' & Hrun).
    destruct (doGenerate_success _ _ _ _ _ Hrun)
      as (h & response & body & Hh & Hf & Hok & Hj & Hs & _).
    exists h, response, body. repeat split; auto; try (now apply ok_true).
    apply extractSegments_normal. eauto.
  - intros (h & response & body & Hh & Hf & Hstatus & Hj & Hd).
    apply ok_true in Hstatus.
    apply extractSegments_normal in Hd as [segs Hs].
    rewrite (doGenerate_run _ _ _ _ Hh), Hf.
    destruct (interpret_decoded self options response body segs
                (recordCall (request self options h) w) Hstatus Hj Hs)
      as (t & l & d & _ & _ & _ & ->).
    eauto.
Qed.

(** A 2xx reply whose parsed body is [null], or whose [segments] is neither
    missing, [null] nor an array of non-[null] elements, makes [doGenerate]
    fail with a [TypeError], after its one HTTP call. *)
Theorem doGenerate_malformed_shape_is_a_TypeError self options w h response body :
  headers (config self) w = Normal h ->
  default globalFetch (fetch (config self)) (request self options h)
    = Normal response ->
  (200 <= status response <= 299)%N ->
  resp_json response = Normal body ->
  ~ segmentsDecodable body ->
  exists m,
    doGenerate self options w
    = (Throw (TypeError m), recordCall (request self options h) w).
Proof.
  intros Hh Hf Hstatus Hj Hbad. apply ok_true in Hstatus.
  rewrite (doGenerate_run _ _ _ _ Hh), Hf.
  unfold interpret. rewrite Hstatus. simpl.
  unfold mbind, M_bind, liftC. rewrite Hj.
  destruct (extractSegments body) as [segs|e] eqn:Hs.
  - exfalso. apply Hbad. apply extractSegments_normal. eauto.
  - destruct (extractSegments_throws _ _ Hs) as [m ->]. eauto.
Qed.

(** What a successful [doGenerate] reports about the exchange: no warning,
    the model's own identifier, the parsed body as it came, every response
    header as captured, the clock's reading, and a world in which exactly the
    one request has been issued. *)
Theorem doGenerate_envelope self options w r w' :
  doGenerate self options w = (Normal r, w') ->
  exists h response,
    headers (config self) w = Normal h
    /\ default globalFetch (fetch (config self)) (request self options h)
       = Normal response
    /\ resp_json response = Normal (response_body r)
    /\ response_headers r = collectHeaders (resp_headers response)
    /\ response_modelId r = modelId self
    /\ response_timestamp r = now w
    /\ warnings r = []
    /\ calls w' = calls w ++ [request self options h].
Proof.
  intros Hrun.
  destruct (doGenerate_success _ _ _ _ _ Hrun)
    as (h & response & body & Hh & Hf & _ & Hj & _ & Hb & Hrh & Hm & Ht & Hw & ->).
  exists h, response. subst body. repeat split; auto.
Qed.

End WithPlatform.

Lemma doGenerate_malformed_shape_is_a_TypeError_witness :
  let reply := Doubles.replying 200 "{...}" (JObject [("segments", JArray [JNull])]) in
  exists m w',
    @doGenerate Doubles.offline (Doubles.transcriptionModel reply)
      (Doubles.transcribe (Textual "UklGRg==") None) Doubles.world
    = (Throw (TypeError m), w').
Proof.
  intros reply.
  destruct (@doGenerate_malformed_shape_is_a_TypeError Doubles.offline
              (Doubles.transcriptionModel reply)
              (Doubles.transcribe (Textual "UklGRg==") None) Doubles.world
              _ reply (JObject [("segments", JArray [JNull])]) eq_refl eq_refl)
    as [m Hm].
  - simpl. lia.
  - reflexivity.
  - simpl. intros Hall. apply Forall_cons in Hall as [Hnull _]. now apply Hnull.
  - eauto.
Defined.

Lemma doGenerate_envelope_witness :
  let reply := Doubles.replying 200 "{...}" (JObject [("text", JString "hi")]) in
  exists r w',
    @doGenerate Doubles.offline (Doubles.transcriptionModel reply)
      (Doubles.transcribe (Textual "UklGRg==") None) Doubles.world = (Normal r, w')
    /\ response_modelId r = "whisper-large-v3"
    /\ warnings r = []
    /\ length (calls w') = 1.
Proof.
  intros reply.
  pose (self := Doubles.transcriptionModel reply).
  pose (options := Doubles.transcribe (Textual "UklGRg==") None).
  pose (w' := recordCall (@request Doubles.offline self options
                            {[ "Authorization" := "Bearer secret" ]}) Doubles.world).
  pose (r := {| text := JString "hi"; segments := []; language := None;
                durationInSeconds := None; warnings := [];
                request_body := "{}"; response_timestamp := 0;
                response_modelId := "whisper-large-v3";
                response_headers := {[ "content-type" := "application/json" ]};
                response_body := JObject [("text", JString "hi")] |}).
  assert (Hrun : @doGenerate Doubles.offline self options Doubles.world
                 = (Normal r, w')) by reflexivity.
  exists r, w'. split; [exact Hrun|].
  destruct (@doGenerate_envelope Doubles.offline self options Doubles.world r w' Hrun)
    as (h & response & _ & _ & _ & _ & Hm & _ & Hw & Hc).
  split; [exact Hm|]. split; [exact Hw|].
  rewrite Hc. reflexivity.
Defined.

End TranscriptionDecoding.

(** ** HTTP calls and failures of the translators *)

Module Calls.

Section WithPlatform.
Context `{Platform}.

(** Whatever the outcome, [doEmbed] and [doGenerate] leave the environment
    and the clock alone and issue at most one HTTP call: none when the header
    thunk throws (the call then fails with the thunk's exception), exactly one
    otherwise. *)
Theorem translators_issue_at_most_one_call :
  (forall (self : EmbeddingV2.ScxEmbeddingModel) (options : EmbeddingV2.CallOptions)
          (w : World),
     env (EmbeddingV2.doEmbed self options w).2 = env w
     /\ now (EmbeddingV2.doEmbed self options w).2 = now w
     /\ match EmbeddingV2.headers (EmbeddingV2.config self) w with
        | Normal h =>
            calls (EmbeddingV2.doEmbed self options w).2
            = calls w ++ [EmbeddingV2.request self options h]
        | Throw e => EmbeddingV2.doEmbed self options w = (Throw e, w)
        end)
  /\ (forall (self : Transcription.ScxTranscriptionModel)
             (options : Transcription.CallOptions) (w : World),
        env (Transcription.doGenerate self options w).2 = env w
        /\ now (Transcription.doGenerate self options w).2 = now w
        /\ match Transcription.headers (Transcription.config self) w with
           | Normal h =>
               calls (Transcription.doGenerate self options w).2
               = calls w ++ [Transcription.request self options h]
           | Throw e => Transcription.doGenerate self options w = (Throw e, w)
           end).
Proof.
  split.
  - intros self options w.
    destruct (EmbeddingV2.headers (EmbeddingV2.config self) w) as [h|e] eqn:Hh.
    + rewrite (EmbeddingV2Props.doEmbed_run _ _ _ _ Hh). repeat split.
    + rewrite (EmbeddingV2Props.doEmbed_headers_fail _ _ _ _ Hh). repeat split.
  - intros self options w.
    destruct (Transcription.headers (Transcription.config self) w) as [h|e] eqn:Hh.
    + rewrite (TranscriptionProps.doGenerate_run _ _ _ _ Hh).
      destruct (default globalFetch (Transcription.fetch (Transcription.config self))
                  (Transcription.request self options h)) as [response|e].
      * rewrite (surjective_pairing
                   (Transcription.interpret self options response
                      (recordCall (Transcription.request self options h) w))).
        rewrite TranscriptionProps.interpret_world. repeat split.
      * repeat split.
    + rewrite (TranscriptionProps.doGenerate_headers_fail _ _ _ _ Hh). repeat split.
Qed.

(** When the transport rejects the call, [doEmbed] and [doGenerate] fail with
    the transport's own exception, unchanged, after that one call. *)
Theorem transport_failure_is_handed_on :
  (forall (self : EmbeddingV2.ScxEmbeddingModel) (options : EmbeddingV2.CallOptions)
          (w : World) (h : Headers) (e : exn),
     EmbeddingV2.headers (EmbeddingV2.config self) w = Normal h ->
     default globalFetch (EmbeddingV2.fetch (EmbeddingV2.config self))
       (EmbeddingV2.request self options h) = Throw e ->
     EmbeddingV2.doEmbed self options w
     = (Throw e, recordCall (EmbeddingV2.request self options h) w))
  /\ (forall (self : Transcription.ScxTranscriptionModel)
             (options : Transcription.CallOptions)
             (w : World) (h : Headers) (e : exn),
        Transcription.headers (Transcription.config self) w = Normal h ->
        default globalFetch (Transcription.fetch (Transcription.config self))
          (Transcription.request self options h) = Throw e ->
        Transcription.doGenerate self options w
        = (Throw e, recordCall (Transcription.request self options h) w)).
Proof.
  split.
  - intros self options w h e Hh Hf.
    now rewrite (EmbeddingV2Props.doEmbed_run _ _ _ _ Hh), Hf.
  - intros self options w h e Hh Hf.
    now rewrite (TranscriptionProps.doGenerate_run _ _ _ _ Hh), Hf.
Qed.

(** When a 2xx reply has a body that does not parse as JSON, [doEmbed] and
    [doGenerate] fail with the parser's own exception, unchanged. *)
Theorem unparsable_body_is_handed_on :
  (forall (self : EmbeddingV2.ScxEmbeddingModel) (options : EmbeddingV2.CallOptions)
          (w : World) (h : Headers) (response : Response) (e : exn),
     EmbeddingV2.headers (EmbeddingV2.config self) w = Normal h ->
     default globalFetch (EmbeddingV2.fetch (EmbeddingV2.config self))
       (EmbeddingV2.request self options h) = Normal response ->
     (200 <= status response <= 299)%N ->
     resp_json response = Throw e ->
     EmbeddingV2.doEmbed self options w
     = (Throw e, recordCall (EmbeddingV2.request self options h) w))
  /\ (forall (self : Transcription.ScxTranscriptionModel)
             (options : Transcription.CallOptions)
             (w : World) (h : Headers) (response : Response) (e : exn),
        Transcription.headers (Transcription.config self) w = Normal h ->
        default globalFetch (Transcription.fetch (Transcription.config self))
          (Transcription.request self options h) = Normal response ->
        (200 <= status response <= 299)%N ->
        resp_json response = Throw e ->
        Transcription.doGenerate self options w
        = (Throw e, recordCall (Transcription.request self options h) w)).
Proof.
  split.
  - intros self options w h response e Hh Hf Hstatus Hj.
    apply EmbeddingDecoding.ok_true in Hstatus.
    rewrite (EmbeddingV2Props.doEmbed_run _ _ _ _ Hh), Hf. simpl.
    unfold EmbeddingV2.interpret. now rewrite Hstatus, Hj.
  - intros self options w h response e Hh Hf Hstatus Hj.
    apply EmbeddingDecoding.ok_true in Hstatus.
    rewrite (TranscriptionProps.doGenerate_run _ _ _ _ Hh), Hf.
    unfold Transcription.interpret. rewrite Hstatus. simpl.
    unfold mbind, M_bind, liftC. now rewrite Hj.
Qed.

End WithPlatform.

(** The transport is unreachable: both calls fail with its exception, one
    request each. *)
Lemma transport_failure_is_handed_on_witness :
  (exists w',
     @EmbeddingV2.doEmbed Doubles.offline Doubles.plainEmbeddingModel
       (Doubles.embed ["a"]) Doubles.world = (Throw (FetchFailure "offline"), w')
     /\ length (calls w') = 1)
  /\ (exists w',
        @Transcription.doGenerate Doubles.offline Doubles.plainTranscriptionModel
          (Doubles.transcribe (Transcription.Textual "UklGRg==") None) Doubles.world
        = (Throw (FetchFailure "offline"), w')
        /\ length (calls w') = 1).
Proof.
  destruct (@transport_failure_is_handed_on Doubles.offline) as [Hembed Htranscribe].
  split.
  - eexists. split.
    + exact (Hembed Doubles.plainEmbeddingModel (Doubles.embed ["a"]) Doubles.world
               _ _ eq_refl eq_refl).
    + reflexivity.
  - eexists. split.
    + exact (Htranscribe Doubles.plainTranscriptionModel
               (Doubles.transcribe (Transcription.Textual "UklGRg==") None)
               Doubles.world _ _ eq_refl eq_refl).
    + reflexivity.
Defined.

(** A 200 reply with the body [<html>]: both calls fail with the parser's
    [SyntaxError]. *)
Lemma unparsable_body_is_handed_on_witness :
  let reply := Doubles.replyingText 200 "<html>" in
  (exists w',
     @EmbeddingV2.doEmbed Doubles.offline (Doubles.embeddingModel reply)
       (Doubles.embed ["a"]) Doubles.world
     = (Throw (SyntaxError "Unexpected token"), w'))
  /\ (exists w',
        @Transcription.doGenerate Doubles.offline (Doubles.transcriptionModel reply)
          (Doubles.transcribe (Transcription.Textual "UklGRg==") None) Doubles.world
        = (Throw (SyntaxError "Unexpected token"), w')).
Proof.
  intros reply.
  assert (Hstatus : (200 <= status reply <= 299)%N) by (simpl; lia).
  destruct (@unparsable_body_is_handed_on Doubles.offline) as [Hembed Htranscribe].
  split.
  - eexists.
    exact (Hembed (Doubles.embeddingModel reply) (Doubles.embed ["a"]) Doubles.world
             _ reply _ eq_refl eq_refl Hstatus eq_refl).
  - eexists.
    exact (Htranscribe (Doubles.transcriptionModel reply)
             (Doubles.transcribe (Transcription.Textual "UklGRg==") None)
             Doubles.world _ reply _ eq_refl eq_refl Hstatus eq_refl).
Defined.

End Calls.

(** ** The response headers handed back *)

Module Captured.

Lemma collectHeaders_snoc hs kv :
  collectHeaders (hs ++ [kv]) = assignHeader kv.1 kv.2 (collectHeaders hs).
Proof. unfold collectHeaders. now rewrite foldl_app. Qed.

Lemma collectHeaders_lookup hs name :
  name <> "__proto__" -> collectHeaders hs !! name = lastValue name hs.
Proof.
  intros Hname. unfold lastValue. induction hs as [|kv hs IH] using rev_ind.
  - reflexivity.
  - rewrite collectHeaders_snoc, filter_app.
    destruct (decide (kv.1 = name)) as [Hk|Hk].
    + rewrite filter_cons_True by exact Hk. rewrite filter_nil.
      rewrite last_snoc. rewrite Hk. now apply assignHeader_lookup.
    + rewrite filter_cons_False by exact Hk. rewrite filter_nil, app_nil_r.
      rewrite assignHeader_lookup_other by exact Hk. exact IH.
Qed.

Lemma collectHeaders_proto hs : collectHeaders hs !! "__proto__" = None.
Proof.
  induction hs as [|kv hs IH] using rev_ind; [reflexivity|].
  rewrite collectHeaders_snoc. now apply assignHeader_proto.
Qed.

Lemma filter_key_absent (hs : list (string * string)) name :
  name ∉ hs.*1 -> filter (fun kv => kv.1 = name) hs = [].
Proof.
  induction hs as [|kv hs IH]; intros Hout; [reflexivity|].
  simpl in Hout. apply not_elem_of_cons in Hout as [Hne Hout].
  rewrite filter_cons_False by congruence. now apply IH.
Qed.

Lemma lastValue_NoDup (hs : list (string * string)) name value :
  NoDup hs.*1 -> lastValue name hs = Some value <-> (name, value) ∈ hs.
Proof.
  unfold lastValue. induction hs as [|[k v] hs IH]; intros Hnd.
  - simpl. split; [discriminate | intros Hin; inversion Hin].
  - simpl in Hnd. apply NoDup_cons in Hnd as [Hfresh Hnd].
    destruct (decide (k = name)) as [->|Hk].
    + rewrite filter_cons_True by reflexivity.
      rewrite (filter_key_absent hs name Hfresh). simpl. split.
      * intros [= ->]. constructor.
      * intros Hin. apply elem_of_cons in Hin as [[= ->] | Hin]; [reflexivity|].
        exfalso. apply Hfresh. apply list_elem_of_fmap. now exists (name, value).
    + rewrite filter_cons_False by exact Hk. rewrite (IH Hnd). split.
      * intros Hin. now constructor.
      * intros Hin. apply elem_of_cons in Hin as [[= -> ->] | Hin]; [congruence | exact Hin].
Qed.

Section WithPlatform.
Context `{Platform}.

(** The headers a successful [doEmbed] or [doGenerate] hands back are those
    of the response: under each name the value the response enumerated last,
    so that, when the response enumerates each name once, a pair is handed
    back exactly when the response has it.  (The name [__proto__], which
    JavaScript does not store as an ordinary property, is left aside.) *)
Theorem response_headers_are_captured :
  (forall (self : EmbeddingV2.ScxEmbeddingModel) (options : EmbeddingV2.CallOptions)
          (w w' : World) (r : EmbeddingV2.Result),
     EmbeddingV2.doEmbed self options w = (Normal r, w') ->
     exists h response,
       EmbeddingV2.headers (EmbeddingV2.config self) w = Normal h
       /\ default globalFetch (EmbeddingV2.fetch (EmbeddingV2.config self))
            (EmbeddingV2.request self options h) = Normal response
       /\ (forall name,
             name <> "__proto__" ->
             EmbeddingV2.rawResponse_headers r !! name
             = lastValue name (resp_headers response))
       /\ (NoDup (resp_headers response).*1 ->
           forall name value,
             name <> "__proto__" ->
             EmbeddingV2.rawResponse_headers r !! name = Some value
             <-> (name, value) ∈ resp_headers response))
  /\ (forall (self : Transcription.ScxTranscriptionModel)
             (options : Transcription.CallOptions)
             (w w' : World) (r : Transcription.Result),
        Transcription.doGenerate self options w = (Normal r, w') ->
        exists h response,
          Transcription.headers (Transcription.config self) w = Normal h
          /\ default globalFetch (Transcription.fetch (Transcription.config self))
               (Transcription.request self options h) = Normal response
          /\ (forall name,
                name <> "__proto__" ->
                Transcription.response_headers r !! name
                = lastValue name (resp_headers response))
          /\ (NoDup (resp_headers response).*1 ->
              forall name value,
                name <> "__proto__" ->
                Transcription.response_headers r !! name = Some value
                <-> (name, value) ∈ resp_headers response)).
Proof.
  split.
  - intros self options w w' r Hrun.
    destruct (EmbeddingV2Props.doEmbed_success _ _ _ _ _ Hrun)
      as (h & response & body & Hh & Hf & _ & _ & _ & _ & Hrh & _).
    exists h, response. rewrite Hrh.
    split; [exact Hh|]. split; [exact Hf|]. split.
    + intros name Hname. now apply collectHeaders_lookup.
    + intros Hnd name value Hname. rewrite collectHeaders_lookup by exact Hname.
      now apply lastValue_NoDup.
  - intros self options w w' r Hrun.
    destruct (TranscriptionDecoding.doGenerate_success _ _ _ _ _ Hrun)
      as (h & response & body & Hh & Hf & _ & _ & _ & _ & Hrh & _).
    exists h, response. rewrite Hrh.
    split; [exact Hh|]. split; [exact Hf|]. split.
    + intros name Hname. now apply collectHeaders_lookup.
    + intros Hnd name value Hname. rewrite collectHeaders_lookup by exact Hname.
      now apply lastValue_NoDup.
Qed.

End WithPlatform.

(** The captured headers of a reply that enumerates [content-type] once. *)
Lemma response_headers_are_captured_witness :
  let reply := Doubles.replying 200 "{}" (JObject []) in
  (exists r w',
     @EmbeddingV2.doEmbed Doubles.offline (Doubles.embeddingModel reply)
       (Doubles.embed ["a"]) Doubles.world = (Normal r, w')
     /\ EmbeddingV2.rawResponse_headers r !! "content-type" = Some "application/json"
     /\ EmbeddingV2.rawResponse_headers r !! "x-request-id" = None)
  /\ (exists r w',
        @Transcription.doGenerate Doubles.offline (Doubles.transcriptionModel reply)
          (Doubles.transcribe (Transcription.Textual "UklGRg==") None) Doubles.world
        = (Normal r, w')
        /\ Transcription.response_headers r !! "content-type"
           = Some "application/json"
        /\ Transcription.response_headers r !! "x-request-id" = None).
Proof.
  intros reply.
  destruct (@response_headers_are_captured Doubles.offline)
    as [Hembed Htranscribe].
  split.
  - pose (self := Doubles.embeddingModel reply).
    pose (w' := recordCall (@EmbeddingV2.request Doubles.offline self
                              (Doubles.embed ["a"])
                              {[ "Authorization" := "Bearer secret" ]}) Doubles.world).
    pose (r := {| EmbeddingV2.embeddings := []; EmbeddingV2.usage := None;
                  EmbeddingV2.rawResponse_headers :=
                    {[ "content-type" := "application/json" ]} |}).
    assert (Hrun : @EmbeddingV2.doEmbed Doubles.offline self (Doubles.embed ["a"])
                     Doubles.world = (Normal r, w')) by reflexivity.
    exists r, w'. split; [exact Hrun|].
    destruct (Hembed self (Doubles.embed ["a"]) Doubles.world w' r Hrun)
      as (h & response & _ & Hf & Hlast & _).
    injection Hf as <-. rewrite !Hlast by discriminate. split; reflexivity.
  - pose (self := Doubles.transcriptionModel reply).
    pose (options := Doubles.transcribe (Transcription.Textual "UklGRg==") None).
    pose (w' := recordCall (@Transcription.request Doubles.offline self options
                              {[ "Authorization" := "Bearer secret" ]}) Doubles.world).
    pose (r := {| Transcription.text := JString "";
                  Transcription.segments := [];
                  Transcription.language := None;
                  Transcription.durationInSeconds := None;
                  Transcription.warnings := [];
                  Transcription.request_body := "{}";
                  Transcription.response_timestamp := 0;
                  Transcription.response_modelId := "whisper-large-v3";
                  Transcription.response_headers :=
                    {[ "content-type" := "application/json" ]};
                  Transcription.response_body := JObject [] |}).
    assert (Hrun : @Transcription.doGenerate Doubles.offline self options Doubles.world
                   = (Normal r, w')) by reflexivity.
    exists r, w'. split; [exact Hrun|].
    destruct (Htranscribe self options Doubles.world w' r Hrun)
      as (h & response & _ & Hf & Hlast & _).
    injection Hf as <-. rewrite !Hlast by discriminate. split; reflexivity.
Defined.

End Captured.

(** ** Header names on the wire *)

Module HeaderNames.

Section WithPlatform.
Context `{Platform}.

(** A request of [doEmbed] or [doGenerate] has a header under a name exactly
    when the configuration has one, or the name is [Content-Type], or the
    caller passed one with a defined value.  So every request has a
    [Content-Type], and no per-call header, defined or not, can take a
    configured header off the request.  (The name [__proto__], which
    JavaScript does not store as an ordinary property, is left aside.) *)
Theorem outbound_header_names :
  (forall (self : EmbeddingV2.ScxEmbeddingModel) (options : EmbeddingV2.CallOptions)
          (h : Headers) (name : string),
     name <> "__proto__" ->
     is_Some (req_headers (EmbeddingV2.request self options h) !! name)
     <-> is_Some (h !! name)
         \/ name = "Content-Type"
         \/ exists entries value,
              EmbeddingV2.additionalHeaders options = Some entries
              /\ entries !! name = Some (Some value))
  /\ (forall (self : Transcription.ScxTranscriptionModel)
             (options : Transcription.CallOptions) (h : Headers) (name : string),
        name <> "__proto__" ->
        is_Some (req_headers (Transcription.request self options h) !! name)
        <-> is_Some (h !! name)
            \/ name = "Content-Type"
            \/ exists entries value,
                 Transcription.additionalHeaders options = Some entries
                 /\ entries !! name = Some (Some value)).
Proof.
  assert (Hmerge : forall (h : Headers) (perCall : CallHeaders) name,
    name <> "__proto__" ->
    is_Some (mergeHeaders h perCall !! name)
    <-> is_Some (h !! name)
        \/ name = "Content-Type"
        \/ exists entries value,
             perCall = Some entries /\ entries !! name = Some (Some value)).
  { intros h perCall name Hname.
    rewrite mergeHeaders_lookup by exact Hname. unfold headerByPrecedence.
    assert (Hbase : is_Some (match h !! name with
                             | Some value => Some value
                             | None => if decide (name = "Content-Type")
                                       then Some "application/json" else None
                             end)
                    <-> is_Some (h !! name) \/ name = "Content-Type").
    { destruct (h !! name) as [v|].
      - split; eauto.
      - case_decide as Hn.
        + split; eauto.
        + split; [intros [x Hx]; discriminate|].
          intros [[x Hx] | Hc]; [discriminate | congruence]. }
    destruct perCall as [entries|]; simpl.
    - destruct (entries !! name) as [[value|]|] eqn:He.
      + split; [|eauto]. intros _. right. right. eauto.
      + rewrite Hbase. split.
        * intros [?|?]; auto.
        * intros [? | [? | (es & v & Hes & Hv)]]; auto.
          injection Hes as <-. congruence.
      + rewrite Hbase. split.
        * intros [?|?]; auto.
        * intros [? | [? | (es & v & Hes & Hv)]]; auto.
          injection Hes as <-. congruence.
    - rewrite Hbase. split.
      + intros [?|?]; auto.
      + intros [? | [? | (es & v & Hes & Hv)]]; auto. discriminate. }
  split; intros self options h name Hname; now apply Hmerge.
Qed.

End WithPlatform.

End HeaderNames.

(** ** The fields of the transcription wire body *)

Module WireBody.
Import Transcription.

Lemma filter_ext_elem {A} (P Q : A -> Prop) `{!forall x, Decision (P x)}
    `{!forall x, Decision (Q x)} (l : list A) :
  (forall x, x ∈ l -> (P x <-> Q x)) -> filter P l = filter Q l.
Proof.
  induction l as [|a l IH]; intros Hext; [reflexivity|].
  rewrite !filter_cons.
  rewrite IH by (intros x Hx; apply Hext; now right).
  destruct (decide (P a)) as [Hp|Hp], (decide (Q a)) as [Hq|Hq]; try reflexivity.
  - exfalso. apply Hq, (Hext a); [now left | exact Hp].
  - exfalso. apply Hp, (Hext a); [now left | exact Hq].
Qed.

Lemma replaceField_keys k v (fields : list (string * JSONValue)) :
  (replaceField k v fields).*1 = fields.*1.
Proof.
  induction fields as [|[k0 v0] rest IH]; [reflexivity|].
  cbn [replaceField]. destruct (String.eqb k k0) eqn:Hk.
  - apply String.eqb_eq in Hk. now subst k0.
  - rewrite !fmap_cons. cbn [fst]. now rewrite IH.
Qed.

Lemma indexBefore_trans a b c : indexBefore a b -> indexBefore b c -> indexBefore a c.
Proof.
  unfold indexBefore.
  destruct (arrayIndex a), (arrayIndex b), (arrayIndex c); try tauto. lia.
Qed.

Lemma insertIndex_keys n k v (fields : list (string * JSONValue)) :
  forall I S,
    fields.*1 = I ++ S ->
    Forall (fun a => is_Some (arrayIndex a)) I ->
    StronglySorted indexBefore I ->
    Forall (fun a => arrayIndex a = None) S ->
    arrayIndex k = Some n ->
    k ∉ fields.*1 ->
    exists I1,
      (insertIndex n k v fields).*1 = I1 ++ S
      /\ I1 ≡ₚ k :: I
      /\ StronglySorted indexBefore I1.
Proof.
  induction fields as [|[k0 v0] rest IH]; intros I S Hkeys HI Hsorted HS Hk Hfresh.
  - symmetry in Hkeys. apply app_eq_nil in Hkeys as [-> ->].
    exists [k]. split; [reflexivity|]. split; [reflexivity|].
    repeat constructor.
  - rewrite fmap_cons in Hkeys, Hfresh. cbn [fst] in Hkeys, Hfresh.
    apply not_elem_of_cons in Hfresh as [Hne Hfresh].
    cbn [insertIndex]. destruct I as [|i0 I0].
    + simpl in Hkeys. subst S. apply Forall_cons in HS as [Hk0 _].
      rewrite Hk0. exists [k]. split; [reflexivity|]. split; [reflexivity|].
      repeat constructor.
    + simpl in Hkeys. injection Hkeys as <- Hrest.
      apply Forall_cons in HI as [[n0 Hn0] HI0].
      apply StronglySorted_inv in Hsorted as [Hsorted0 Hall].
      rewrite Hn0. destruct (N.ltb_spec n0 n) as [Hlt|Hge].
      * destruct (IH I0 S Hrest HI0 Hsorted0 HS Hk Hfresh)
          as (I1 & Hkeys1 & Hperm & Hsorted1).
        exists (k0 :: I1). rewrite fmap_cons. cbn [fst]. rewrite Hkeys1.
        split; [reflexivity|]. split.
        -- rewrite Hperm. apply Permutation_swap.
        -- constructor; [exact Hsorted1|].
           rewrite Hperm. constructor; [|exact Hall].
           unfold indexBefore. now rewrite Hn0, Hk.
      * assert (Hlt : (n < n0)%N).
        { destruct (decide (n = n0)) as [->|Hnn]; [|lia].
          exfalso. apply Hne.
          rewrite (arrayIndex_canonical _ _ Hk), (arrayIndex_canonical _ _ Hn0).
          reflexivity. }
        exists (k :: k0 :: I0). rewrite !fmap_cons. cbn [fst]. rewrite Hrest.
        split; [reflexivity|]. split; [reflexivity|].
        constructor; [now constructor|].
        assert (Hkk0 : indexBefore k k0) by (unfold indexBefore; now rewrite Hk, Hn0).
        constructor; [exact Hkk0|].
        eapply Forall_impl; [exact Hall|].
        intros x Hx. now apply (indexBefore_trans k k0 x).
Qed.

Lemma objectAssign_keys source :
  forall target I S,
    NoDup source.*1 ->
    target.*1 = I ++ S ->
    Forall (fun a => is_Some (arrayIndex a)) I ->
    StronglySorted indexBefore I ->
    Forall (fun a => arrayIndex a = None) S ->
    exists I',
      (objectAssign target source).*1
      = I' ++ S ++ filter (fun k => arrayIndex k = None /\ (k ∉ target.*1)
                                    /\ k <> "__proto__") source.*1
      /\ I' ≡ₚ I ++ filter (fun k => is_Some (arrayIndex k) /\ (k ∉ target.*1))
                      source.*1
      /\ StronglySorted indexBefore I'.
Proof.
  induction source as [|[k v] rest IH]; intros target I S Hnd Hkeys HI Hsorted HS.
  - exists I. cbn. rewrite !app_nil_r. auto.
  - rewrite fmap_cons in Hnd |- *. cbn [fst] in Hnd |- *.
    apply NoDup_cons in Hnd as [Hfresh Hnd].
    change (objectAssign target ((k, v) :: rest))
      with (objectAssign (setField k v target) rest).
    unfold setField. destruct (assoc k target) as [old|] eqn:Hown.
    + (* an own property: the keys stay *)
      assert (Hin : k ∈ target.*1).
      { destruct (decide (k ∈ target.*1)) as [?|Hout]; [assumption|].
        apply assoc_keys in Hout. congruence. }
      destruct (IH (replaceField k v target) I S Hnd) as (I' & Hk' & Hperm & Hs');
        [now rewrite replaceField_keys | assumption..|].
      rewrite replaceField_keys in Hk', Hperm.
      exists I'. rewrite !filter_cons_False by tauto. auto.
    + apply assoc_keys in Hown.
      destruct (String.eqb k "__proto__") eqn:Hproto.
      * (* the setter of the prototype: nothing is created *)
        apply String.eqb_eq in Hproto. subst k.
        destruct (IH target I S Hnd Hkeys HI Hsorted HS) as (I' & Hk' & Hperm & Hs').
        exists I'. rewrite filter_cons_False by tauto.
        rewrite filter_cons_False by (intros [[n Hn] _]; vm_compute in Hn; discriminate).
        auto.
      * apply String.eqb_neq in Hproto.
        destruct (arrayIndex k) as [n|] eqn:Hidx.
        -- (* an array index: sorted in among the indices *)
           destruct (insertIndex_keys n k v target I S Hkeys HI Hsorted HS Hidx Hown)
             as (I1 & Hkeys1 & Hperm1 & Hsorted1).
           assert (HI1 : Forall (fun a => is_Some (arrayIndex a)) I1).
           { rewrite Hperm1. constructor; [now exists n | exact HI]. }
           destruct (IH (insertIndex n k v target) I1 S Hnd Hkeys1 HI1 Hsorted1 HS)
             as (I' & Hk' & Hperm & Hs').
           assert (Hmem : forall x, x ∈ rest.*1 ->
                     (x ∈ (insertIndex n k v target).*1 <-> x ∈ target.*1)).
           { intros x Hx. rewrite Hkeys1, Hkeys, !elem_of_app, Hperm1, elem_of_cons.
             split; [|tauto]. intros [[->|?]|?]; tauto. }
           rewrite (filter_ext_elem
                      (fun x => arrayIndex x = None
                                /\ (x ∉ (insertIndex n k v target).*1) /\ x <> "__proto__")
                      (fun x => arrayIndex x = None
                                /\ (x ∉ target.*1) /\ x <> "__proto__") rest.*1)
             in Hk' by (intros x Hx; now rewrite (Hmem x Hx)).
           rewrite (filter_ext_elem
                      (fun x => is_Some (arrayIndex x)
                                /\ (x ∉ (insertIndex n k v target).*1))
                      (fun x => is_Some (arrayIndex x) /\ (x ∉ target.*1)) rest.*1)
             in Hperm by (intros x Hx; now rewrite (Hmem x Hx)).
           exists I'. split; [|split; [|exact Hs']].
           ++ rewrite Hk'. now rewrite filter_cons_False by (intros [? _]; congruence).
           ++ rewrite Hperm, Hperm1.
              rewrite filter_cons_True by (split; [(now exists n) | exact Hown]).
              now rewrite <- Permutation_middle.
        -- (* any other name: added last *)
           assert (Hkeys1 : (target ++ [(k, v)]).*1 = I ++ (S ++ [k])).
           { rewrite fmap_app, Hkeys, <- app_assoc. reflexivity. }
           assert (HS1 : Forall (fun a => arrayIndex a = None) (S ++ [k])).
           { apply Forall_app. split; [exact HS | now constructor]. }
           destruct (IH (target ++ [(k, v)]) I (S ++ [k]) Hnd Hkeys1 HI Hsorted HS1)
             as (I' & Hk' & Hperm & Hs').
           assert (Hmem : forall x, x ∈ rest.*1 ->
                     (x ∈ (target ++ [(k, v)]).*1 <-> x ∈ target.*1)).
           { intros x Hx. rewrite fmap_app, elem_of_app. simpl.
             rewrite list_elem_of_singleton.
             split; [|tauto]. intros [?| ->]; tauto. }
           rewrite (filter_ext_elem
                      (fun x => arrayIndex x = None
                                /\ (x ∉ (target ++ [(k, v)]).*1) /\ x <> "__proto__")
                      (fun x => arrayIndex x = None
                                /\ (x ∉ target.*1) /\ x <> "__proto__") rest.*1)
             in Hk' by (intros x Hx; now rewrite (Hmem x Hx)).
           rewrite (filter_ext_elem
                      (fun x => is_Some (arrayIndex x)
                                /\ (x ∉ (target ++ [(k, v)]).*1))
                      (fun x => is_Some (arrayIndex x) /\ (x ∉ target.*1)) rest.*1)
             in Hperm by (intros x Hx; now rewrite (Hmem x Hx)).
           exists I'. split; [|split; [|exact Hs']].
           ++ rewrite Hk', <- !app_assoc. simpl.
              now rewrite filter_cons_True by tauto.
           ++ rewrite Hperm.
              now rewrite filter_cons_False by (intros [[m Hm] _]; congruence).
Qed.

(** The wire body of a transcription request with an [scx] options bag
    lists its fields in the order in which JavaScript enumerates them: first
    the bag's keys that are array indices, in ascending order; then [model],
    [audio] and [media_type], in that order, also when the bag replaces their
    values; then the bag's other keys, in the bag's order, but for
    [__proto__], which is not copied. *)
Theorem wire_body_fields (self : ScxTranscriptionModel) (options : CallOptions)
    (scx : list (string * JSONValue)) :
  scxOptions options = Some scx ->
  NoDup scx.*1 ->
  exists front,
    (requestBody self options).*1
    = front ++ ["model"; "audio"; "media_type"]
      ++ filter (fun k => arrayIndex k = None
                          /\ (k ∉ ["model"; "audio"; "media_type"])
                          /\ k <> "__proto__") scx.*1
    /\ front ≡ₚ filter (fun k => is_Some (arrayIndex k)) scx.*1
    /\ StronglySorted indexBefore front.
Proof.
  intros Hsome Hnd. unfold requestBody. rewrite Hsome.
  destruct (objectAssign_keys scx (baseBody self options) []
              ["model"; "audio"; "media_type"] Hnd eq_refl)
    as (front & Hkeys & Hperm & Hsorted).
  - constructor.
  - constructor.
  - repeat constructor.
  - exists front. split; [exact Hkeys|]. split; [|exact Hsorted].
    rewrite Hperm. simpl. apply reflexive_eq, filter_ext_elem.
    intros k _. split; [tauto|]. intros Hidx. split; [exact Hidx|].
    intros Hin. destruct Hidx as [n Hn].
    apply list_elem_of_In in Hin. simpl in Hin.
    destruct Hin as [<- | [<- | [<- | []]]]; vm_compute in Hn; discriminate.
Qed.

(** A bag with the array indices [10] and [9], a new [language], a
    replacement for [model] and a [__proto__]: the body lists [9] and [10]
    first, then the three base fields, then [language]. *)
Lemma wire_body_fields_witness :
  let self := Doubles.transcriptionModel (Doubles.replying 200 "{}" (JObject [])) in
  let scx := [("9", JString "y"); ("10", JString "x");
              ("language", JString "en"); ("model", JString "other");
              ("__proto__", JString "z")] in
  let options := Doubles.transcribe (Textual "UklGRg==") (Some scx) in
  (requestBody self options).*1
  = ["9"; "10"; "model"; "audio"; "media_type"; "language"]
  /\ exists front,
       (requestBody self options).*1
       = front ++ ["model"; "audio"; "media_type"; "language"]
       /\ front ≡ₚ ["9"; "10"]
       /\ StronglySorted indexBefore front.
Proof.
  intros self scx options.
  split; [reflexivity|].
  destruct (wire_body_fields self options scx eq_refl) as (front & Hkeys & Hperm & Hs).
  - apply (bool_decide_unpack _). vm_compute. exact I.
  - exists front. split; [exact Hkeys|]. split; [exact Hperm | exact Hs].
Defined.

(** Options addressed to another provider never reach the wire: adding or
    replacing the bag of any provider other than [scx] leaves the request body
    as it was.  (The name [__proto__] is left aside: written in an object
    literal it sets the prototype, through which [scx] could be found.) *)
Theorem foreign_options_stay_home (self : ScxTranscriptionModel)
    (options : CallOptions) (po : gmap string (list (string * JSONValue)))
    (name : string) (bag : list (string * JSONValue)) :
  providerOptions options = Some po ->
  name <> "scx" ->
  name <> "__proto__" ->
  requestBody self
    {| audio := audio options; mediaType := mediaType options;
       abortSignal := abortSignal options;
       additionalHeaders := additionalHeaders options;
       providerOptions := Some (<[name := bag]> po) |}
  = requestBody self options.
Proof.
  intros Hpo Hname _. unfold requestBody, scxOptions, baseBody. simpl.
  rewrite Hpo. simpl. now rewrite lookup_insert_ne.
Qed.

Lemma foreign_options_stay_home_witness :
  let self := Doubles.transcriptionModel (Doubles.replying 200 "{}" (JObject [])) in
  let options := Doubles.transcribe (Textual "UklGRg==")
                   (Some [("language", JString "en")]) in
  requestBody self
    {| audio := audio options; mediaType := mediaType options;
       abortSignal := abortSignal options;
       additionalHeaders := additionalHeaders options;
       providerOptions :=
         Some (<["openai" := [("audio", JNumber 5)] ]>
                 {[ "scx" := [("language", JString "en")] ]}) |}
  = requestBody self options.
Proof.
  intros self options.
  apply (foreign_options_stay_home self options
           {[ "scx" := [("language", JString "en")] ]} "openai"
           [("audio", JNumber 5)]).
  - reflexivity.
  - discriminate.
  - discriminate.
Defined.

End WireBody.

(** ** The two generations of the transcription translator *)

Module TranscriptionGenerations.

Lemma mapC_fmap {A B C} (f : A -> completion B) (f' : A -> completion C)
    (g : B -> C) xs :
  (forall x, f' x = g <$> f x) ->
  mapC f' xs = fmap (M := completion) (fmap g) (mapC f xs).
Proof.
  intros Hf. induction xs as [|x xs IH]; simpl; [reflexivity|].
  rewrite Hf, IH. destruct (f x); simpl; [|reflexivity].
  destruct (mapC f xs); reflexivity.
Qed.

Lemma segmentOf_agree d :
  TranscriptionV3.segmentOf d = upgradeSegment <$> Transcription.segmentOf d.
Proof. destruct d; reflexivity. Qed.

Lemma extractSegments_agree body :
  TranscriptionV3.extractSegments body
  = fmap (M := completion) (fmap upgradeSegment) (Transcription.extractSegments body).
Proof.
  unfold TranscriptionV3.extractSegments, Transcription.extractSegments.
  destruct (getProp body "segments") as [segs|e]; simpl; [|reflexivity].
  unfold optMap, callMap.
  destruct segs as [[| b | n | s | items | fields]|]; try reflexivity.
  rewrite (mapC_fmap Transcription.segmentOf TranscriptionV3.segmentOf upgradeSegment
             items segmentOf_agree).
  destruct (mapC Transcription.segmentOf items); reflexivity.
Qed.

Section WithPlatform.
Context `{Platform}.

(** Run on the same model, options and world, the V3 [doGenerate] does what
    the V1 [doGenerate] does: it leaves the same world behind, throws the same
    exception when V1 throws, and otherwise returns V1's result with an empty
    list of warnings. *)
Theorem transcription_generations_agree (self : Transcription.ScxTranscriptionModel)
    (options : Transcription.CallOptions) (w : World) :
  TranscriptionV3.doGenerate (upgradeTranscriptionModel self)
    (upgradeTranscriptionOptions options) w
  = (fmap (M := completion) upgradeTranscriptionResult
       (Transcription.doGenerate self options w).1,
     (Transcription.doGenerate self options w).2).
Proof.
  unfold TranscriptionV3.doGenerate, Transcription.doGenerate, mbind, M_bind,
    observe, callFetch.
  change (TranscriptionV3.headers (TranscriptionV3.config (upgradeTranscriptionModel self)))
    with (Transcription.headers (Transcription.config self)).
  destruct (Transcription.headers (Transcription.config self) w) as [h|e];
    [|reflexivity].
  change (TranscriptionV3.request (upgradeTranscriptionModel self)
            (upgradeTranscriptionOptions options) h)
    with (Transcription.request self options h).
  change (TranscriptionV3.fetch (TranscriptionV3.config (upgradeTranscriptionModel self)))
    with (Transcription.fetch (Transcription.config self)).
  destruct (default globalFetch (Transcription.fetch (Transcription.config self))
              (Transcription.request self options h)) as [response|e];
    [|reflexivity].
  unfold TranscriptionV3.interpret, Transcription.interpret.
  destruct (ok response); simpl; [|reflexivity].
  unfold mbind, M_bind, liftC, newDate, mret, M_ret.
  destruct (resp_json response) as [body|e]; [|reflexivity].
  rewrite extractSegments_agree.
  destruct (Transcription.extractSegments body) as [segs|e]; simpl; [|reflexivity].
  destruct (getProp body "text") as [t|e]; [|reflexivity].
  destruct (getProp body "language") as [l|e]; [|reflexivity].
  destruct (getProp body "duration") as [d|e]; reflexivity.
Qed.

End WithPlatform.

End TranscriptionGenerations.

(** ** The provider façade at work *)

Module Facade.
Import Provider.

Lemma getApiKey_resolution options w key :
  getApiKey options w = Normal key
  <-> apiKey options = Some key
      \/ (apiKey options = None /\ env w !! "SCX_API_KEY" = Some key).
Proof.
  unfold getApiKey, loadApiKey, getenv.
  destruct (apiKey options) as [k|]; simpl.
  - split.
    + intros [= ->]. now left.
    + intros [[= ->] | [Hn _]]; [reflexivity | discriminate].
  - destruct (env w !! "SCX_API_KEY") as [k|]; simpl.
    + split.
      * intros [= ->]. now right.
      * intros [Hs | [_ [= ->]]]; [discriminate | reflexivity].
    + split; [discriminate|].
      intros [Hs | [_ Hs]]; discriminate.
Qed.

Lemma getApiKey_failure options w e :
  getApiKey options w = Throw e ->
  apiKey options = None /\ env w !! "SCX_API_KEY" = None
  /\ exists m, e = LoadAPIKeyError m.
Proof.
  unfold getApiKey, loadApiKey, getenv.
  destruct (apiKey options) as [k|]; simpl; [discriminate|].
  destruct (env w !! "SCX_API_KEY") as [k|]; simpl; [discriminate|].
  intros [= <-]. eauto.
Qed.

Lemma getApiKey_missing options w :
  apiKey options = None -> env w !! "SCX_API_KEY" = None ->
  exists m, getApiKey options w = Throw (LoadAPIKeyError m).
Proof.
  intros Hs He. unfold getApiKey, loadApiKey, getenv. rewrite Hs. simpl.
  rewrite He. simpl. eauto.
Qed.

Lemma getHeaders_resolved options w key :
  getApiKey options w = Normal key ->
  getHeaders options w
  = Normal (default ∅ (headers options) ∪ {[ "Authorization" := "Bearer " +:+ key ]}).
Proof. intros Hk. unfold getHeaders. now rewrite Hk. Qed.

Lemma getHeaders_failure options w e :
  getApiKey options w = Throw e -> getHeaders options w = Throw e.
Proof. intros Hk. unfold getHeaders. now rewrite Hk. Qed.

Lemma wire_lookup (custom : option Headers) (key : string) (perCall : CallHeaders)
    (name : string) :
  name <> "__proto__" ->
  mergeHeaders (default ∅ custom ∪ {[ "Authorization" := "Bearer " +:+ key ]}) perCall
    !! name
  = headerOnTheWire custom key perCall name.
Proof.
  intros Hname.
  rewrite mergeHeaders_lookup by exact Hname. unfold headerByPrecedence, headerOnTheWire.
  assert (Hcfg :
    (default ∅ custom ∪ {[ "Authorization" := "Bearer " +:+ key ]} : Headers) !! name
    = match default ∅ custom !! name with
      | Some value => Some value
      | None => if decide (name = "Authorization")
                then Some ("Bearer " +:+ key) else None
      end).
  { rewrite lookup_union. destruct (default ∅ custom !! name) as [v|].
    - now rewrite union_Some_l.
    - rewrite (left_id None _). case_decide as Ha.
      + subst name. apply lookup_singleton_eq.
      + apply lookup_singleton_ne. congruence. }
  rewrite Hcfg.
  destruct (perCall ≫= (fun entries => entries !! name)) as [[v|]|];
    try reflexivity;
    (destruct (default ∅ custom !! name) as [v|]; [reflexivity|];
     case_decide; reflexivity).
Qed.

(** [createScx] never touches the world, and it returns a provider exactly
    when a key can be resolved while it runs: from the [apiKey] setting or
    from [SCX_API_KEY].  When it fails, it fails with a [LoadAPIKeyError]. *)
Theorem createScx_succeeds_exactly_with_a_key options w :
  (createScx options w).2 = w
  /\ ((exists p, (createScx options w).1 = Normal p)
      <-> is_Some (apiKey options) \/ is_Some (env w !! "SCX_API_KEY"))
  /\ (forall e, (createScx options w).1 = Throw e -> exists m, e = LoadAPIKeyError m).
Proof.
  unfold createScx, mbind, M_bind, observe.
  destruct (getApiKey options w) as [key|e] eqn:Hk; simpl.
  - split; [reflexivity|]. split; [|discriminate].
    split; [|eauto]. intros _.
    apply getApiKey_resolution in Hk as [Hs | [_ He]]; [left | right]; eauto.
  - split; [reflexivity|].
    destruct (getApiKey_failure _ _ _ Hk) as (Hs & He & m & ->).
    split.
    + split; [intros [p Hp]; discriminate|].
      rewrite Hs, He. intros [[x Hx] | [x Hx]]; discriminate.
    + intros e' [= <-]. eauto.
Qed.

Section WithPlatform.
Context `{Platform}.

(** A request of a provider-made embedding or transcription model goes by
    [POST] to the resolved base URL followed by [/embeddings] or
    [/transcriptions], and carries under every name the per-call header when
    its value is defined, else the provider's custom header, else, under
    [Authorization], the bearer token of the key resolved when the request is
    made, else the fixed [Content-Type].  (The name [__proto__], which
    JavaScript does not store as an ordinary property, is left aside.) *)
Theorem provider_made_requests :
  (forall options modelId (call : EmbeddingV2.CallOptions) (w : World) (key : string),
     getApiKey options w = Normal key ->
     exists req,
       calls (EmbeddingV2.doEmbed (createEmbeddingModel options modelId) call w).2
       = calls w ++ [req]
       /\ url req = resolveBaseURL options +:+ "/embeddings"
       /\ method req = "POST"
       /\ forall name,
            name <> "__proto__" ->
            req_headers req !! name
            = headerOnTheWire (headers options) key
                (EmbeddingV2.additionalHeaders call) name)
  /\ (forall options modelId (call : Transcription.CallOptions) (w : World)
             (key : string),
        getApiKey options w = Normal key ->
        exists req,
          calls (Transcription.doGenerate (createTranscriptionModel options modelId)
                   call w).2
          = calls w ++ [req]
          /\ url req = resolveBaseURL options +:+ "/transcriptions"
          /\ method req = "POST"
          /\ forall name,
               name <> "__proto__" ->
               req_headers req !! name
               = headerOnTheWire (headers options) key
                   (Transcription.additionalHeaders call) name).
Proof.
  split.
  - intros options modelId call w key Hk.
    eexists. split.
    + apply Outbound.doEmbed_calls. simpl. exact (getHeaders_resolved _ _ _ Hk).
    + repeat split. intros name Hname. now apply wire_lookup.
  - intros options modelId call w key Hk.
    eexists. split.
    + apply Outbound.doGenerate_calls. simpl. exact (getHeaders_resolved _ _ _ Hk).
    + repeat split. intros name Hname. now apply wire_lookup.
Qed.

(** When no key can be resolved at the time of a request, a provider-made
    embedding or transcription model fails with a [LoadAPIKeyError] without
    issuing any HTTP call, whatever custom headers the provider was given. *)
Theorem request_without_key_never_leaves :
  (forall options modelId (call : EmbeddingV2.CallOptions) (w : World),
     apiKey options = None ->
     env w !! "SCX_API_KEY" = None ->
     exists m,
       EmbeddingV2.doEmbed (createEmbeddingModel options modelId) call w
       = (Throw (LoadAPIKeyError m), w))
  /\ (forall options modelId (call : Transcription.CallOptions) (w : World),
        apiKey options = None ->
        env w !! "SCX_API_KEY" = None ->
        exists m,
          Transcription.doGenerate (createTranscriptionModel options modelId) call w
          = (Throw (LoadAPIKeyError m), w)).
Proof.
  split.
  - intros options modelId call w Hs He.
    destruct (getApiKey_missing options w Hs He) as [m Hk].
    exists m. apply EmbeddingV2Props.doEmbed_headers_fail. simpl.
    now apply getHeaders_failure.
  - intros options modelId call w Hs He.
    destruct (getApiKey_missing options w Hs He) as [m Hk].
    exists m. apply TranscriptionProps.doGenerate_headers_fail. simpl.
    now apply getHeaders_failure.
Qed.

End WithPlatform.

(** A provider with a custom header, a base URL ending in a slash and no key
    of its own, at work in a world whose environment holds the key. *)
Lemma provider_made_requests_witness :
  let options := Doubles.custom (Doubles.replying 200 "{}" (JObject [])) in
  (exists req,
     calls (@EmbeddingV2.doEmbed Doubles.offline
              (createEmbeddingModel options "E5-Mistral-7B-Instruct")
              (Doubles.embedTraced ["a"]) (Doubles.withKey "secret")).2 = [req]
     /\ url req = "https://gateway.test/scx/embeddings"
     /\ req_headers req !! "Authorization" = Some "Bearer secret"
     /\ req_headers req !! "X-Team" = Some "search"
     /\ req_headers req !! "Content-Type" = Some "text/plain"
     /\ req_headers req !! "X-Trace" = None)
  /\ (exists req,
        calls (@Transcription.doGenerate Doubles.offline
                 (createTranscriptionModel options "whisper-large-v3")
                 (Doubles.transcribeTraced (Transcription.Textual "UklGRg=="))
                 (Doubles.withKey "secret")).2 = [req]
        /\ url req = "https://gateway.test/scx/transcriptions"
        /\ req_headers req !! "Authorization" = Some "Bearer secret"
        /\ req_headers req !! "X-Team" = Some "search"
        /\ req_headers req !! "Content-Type" = Some "text/plain"
        /\ req_headers req !! "X-Trace" = None).
Proof.
  intros options.
  destruct (@provider_made_requests Doubles.offline) as [Hembed Htranscribe].
  destruct (Hembed options "E5-Mistral-7B-Instruct" (Doubles.embedTraced ["a"])
              (Doubles.withKey "secret") "secret" eq_refl)
    as (req & Hc & Hu & _ & Hh).
  destruct (Htranscribe options "whisper-large-v3"
              (Doubles.transcribeTraced (Transcription.Textual "UklGRg=="))
              (Doubles.withKey "secret") "secret" eq_refl)
    as (req' & Hc' & Hu' & _ & Hh').
  split.
  - exists req. split; [exact Hc|]. rewrite Hu, !Hh by discriminate.
    repeat split; reflexivity.
  - exists req'. split; [exact Hc'|]. rewrite Hu', !Hh' by discriminate.
    repeat split; reflexivity.
Defined.

(** The same provider in a world whose environment holds no key. *)
Lemma request_without_key_never_leaves_witness :
  let options := Doubles.custom (Doubles.replying 200 "{}" (JObject [])) in
  (exists m,
     @EmbeddingV2.doEmbed Doubles.offline
       (createEmbeddingModel options "E5-Mistral-7B-Instruct")
       (Doubles.embed ["a"]) Doubles.world
     = (Throw (LoadAPIKeyError m), Doubles.world))
  /\ (exists m,
        @Transcription.doGenerate Doubles.offline
          (createTranscriptionModel options "whisper-large-v3")
          (Doubles.transcribe (Transcription.Textual "UklGRg==") None) Doubles.world
        = (Throw (LoadAPIKeyError m), Doubles.world)).
Proof.
  intros options.
  destruct (@request_without_key_never_leaves Doubles.offline)
    as [Hembed Htranscribe].
  split.
  - exact (Hembed options "E5-Mistral-7B-Instruct" (Doubles.embed ["a"])
             Doubles.world eq_refl eq_refl).
  - exact (Htranscribe options "whisper-large-v3"
             (Doubles.transcribe (Transcription.Textual "UklGRg==") None)
             Doubles.world eq_refl eq_refl).
Defined.

End Facade.

(** ** The V3 generation of the façade *)

Module FacadeV3.
Import Provider.

(** Given the same settings in the same world, the V3 [createScx] fails
    exactly when the V2 [createScx] fails, with the same exception; otherwise
    both leave the world as it was, their chat entry points return the same
    models and reject [new] alike, and the embedding and transcription models
    of the V3 provider are those of the V2 provider read as V3 translators. *)
Theorem facade_generations_agree (options : ScxProviderSettings) (w : World) :
  match Provider.createScx options w, ProviderV3.createScx options w with
  | (Normal p2, w2), (Normal p3, w3) =>
      w2 = w3
      /\ forall modelId,
           ProviderV3.chat p3 modelId = chat p2 modelId
           /\ ProviderV3.languageModel p3 modelId = languageModel p2 modelId
           /\ ProviderV3.embeddingModel p3 modelId
              = upgradeModel (embedding p2 modelId)
           /\ ProviderV3.textEmbeddingModel p3 modelId
              = upgradeModel (textEmbeddingModel p2 modelId)
           /\ ProviderV3.transcriptionModel p3 modelId
              = upgradeTranscriptionModel (transcription p2 modelId)
           /\ forall new_target w1,
                ProviderV3.invoke p3 new_target modelId w1
                = invoke p2 new_target modelId w1
  | (Throw e2, w2), (Throw e3, w3) => e2 = e3 /\ w2 = w3
  | _, _ => False
  end.
Proof.
  unfold Provider.createScx, ProviderV3.createScx, mbind, M_bind, observe.
  destruct (getApiKey options w) as [key|e]; simpl.
  - split; [reflexivity|]. intros modelId. repeat split; reflexivity.
  - split; reflexivity.
Qed.



End FacadeV3.

(** ** The base URL *)

Module BaseURL.
Import Provider.

Lemma dropTrailingSlash_slash t : dropTrailingSlash (t +:+ "/") = t.
Proof.
  induction t as [|c t IH]; [reflexivity|].
  change (String c t +:+ "/") with (String c (t +:+ "/")).
  destruct t as [|c' t'].
  - reflexivity.
  - change (String c' t' +:+ "/") with (String c' (t' +:+ "/")) in *.
    cbn [dropTrailingSlash]. cbn [dropTrailingSlash] in IH. now rewrite IH.
Qed.

Lemma dropTrailingSlash_other s :
  (forall t, s <> t +:+ "/") -> dropTrailingSlash s = s.
Proof.
  induction s as [|c s IH]; intros Hs; [reflexivity|].
  destruct s as [|c' s'].
  - cbn [dropTrailingSlash]. destruct (Ascii.eqb c "/") eqn:Hc; [|reflexivity].
    apply Ascii.eqb_eq in Hc. subst c. exfalso. now apply (Hs "").
  - cbn [dropTrailingSlash]. cbn [dropTrailingSlash] in IH. rewrite IH; [reflexivity|].
    intros t Ht. apply (Hs (String c t)).
    change (String c t +:+ "/") with (String c (t +:+ "/")). now rewrite <- Ht.
Qed.

(** The base URL requests are sent to: the default when the setting is
    [undefined]; the setting without its last character when it ends in a
    slash; the setting itself otherwise, the empty string included. *)
Theorem base_url_resolution (options : ScxProviderSettings) :
  (baseURL options = None -> resolveBaseURL options = "https://api.scx.ai/v1")
  /\ (forall t, baseURL options = Some (t +:+ "/") -> resolveBaseURL options = t)
  /\ (forall s, baseURL options = Some s -> (forall t, s <> t +:+ "/") ->
                resolveBaseURL options = s).
Proof.
  unfold resolveBaseURL, withoutTrailingSlash. split; [|split].
  - intros ->. reflexivity.
  - intros t ->. simpl. apply dropTrailingSlash_slash.
  - intros s -> Hs. simpl. now apply dropTrailingSlash_other.
Qed.

Lemma base_url_resolution_witness :
  resolveBaseURL Provider.noSettings = "https://api.scx.ai/v1"
  /\ resolveBaseURL (Doubles.custom (Doubles.replying 200 "{}" (JObject [])))
     = "https://gateway.test/scx"
  /\ resolveBaseURL {| baseURL := Some ""; apiKey := None; headers := None;
                       fetch := None |} = "".
Proof.
  split; [|split].
  - destruct (base_url_resolution Provider.noSettings) as (Hdefault & _ & _).
    exact (Hdefault eq_refl).
  - destruct (base_url_resolution
                (Doubles.custom (Doubles.replying 200 "{}" (JObject []))))
      as (_ & Hslash & _).
    exact (Hslash "https://gateway.test/scx" eq_refl).
  - destruct (base_url_resolution
                {| baseURL := Some ""; apiKey := None; headers := None;
                   fetch := None |}) as (_ & _ & Hother).
    apply (Hother "" eq_refl). intros [|c t]; discriminate.
Defined.

End BaseURL.

(** ** When usage is reported *)

Module UsagePresence.
Import EmbeddingV2 EmbeddingV2Props.

Lemma coalesce_not_null a b : b <> JNull -> coalesce a b <> JNull.
Proof. intros Hb. destruct a as [[| | | | |]|]; simpl; congruence. Qed.

Lemma extractUsage_presence body u :
  extractUsage body = Normal u ->
  (is_Some u
   <-> isArray body = false
       /\ exists v, getProp body "usage" = Normal v /\ truthy v = true)
  /\ (forall x, u = Some x -> tokens x <> JNull).
Proof.
  unfold extractUsage.
  destruct body as [| b | n | s | items | fields]; simpl;
    try discriminate;
    try (intros [= <-]; split;
         [split; [intros [x Hx]; discriminate
                 | intros [Ha (v & Hv & Ht)]; try discriminate Ha;
                   injection Hv as <-; discriminate Ht]
         | intros x Hx; discriminate]).
  destruct (assoc "usage" fields) as [v|] eqn:Hv.
  - destruct (truthy (Some v)) eqn:Ht.
    + destruct (getProp v "total_tokens") as [total|e] eqn:Htotal; simpl;
        [|discriminate].
      destruct (nullish total).
      * destruct (getProp v "prompt_tokens") as [prompt|e]; simpl; [|discriminate].
        intros [= <-]. split.
        -- split; [|eauto]. intros _. split; [reflexivity|]. eauto.
        -- intros x [= <-]. simpl. now apply coalesce_not_null.
      * simpl. intros [= <-]. split.
        -- split; [|eauto]. intros _. split; [reflexivity|]. eauto.
        -- intros x [= <-]. simpl. now apply coalesce_not_null.
    + intros [= <-]. split.
      * split; [intros [x Hx]; discriminate|].
        intros [_ (v' & [= <-] & Ht')]. congruence.
      * intros x Hx. discriminate.
  - intros [= <-]. split.
    + split; [intros [x Hx]; discriminate|].
      intros [_ (v' & [= <-] & Ht')]. discriminate.
    + intros x Hx. discriminate.
Qed.

Section WithPlatform.
Context `{Platform}.

(** A successful [doEmbed] reports usage exactly when the reply is not an
    array and its [usage] is truthy (so an object, but also not [null], [0],
    [false] or the empty string); the token count it then reports is never
    [null]. *)
Theorem doEmbed_usage_presence self options w r w' :
  doEmbed self options w = (Normal r, w') ->
  exists h response body,
    headers (config self) w = Normal h
    /\ default globalFetch (fetch (config self)) (request self options h)
       = Normal response
    /\ resp_json response = Normal body
    /\ (is_Some (usage r)
        <-> isArray body = false
            /\ exists v, getProp body "usage" = Normal v /\ truthy v = true)
    /\ (forall u, usage r = Some u -> tokens u <> JNull).
Proof.
  intros Hrun.
  destruct (doEmbed_success _ _ _ _ _ Hrun)
    as (h & response & body & Hh & Hf & _ & Hj & _ & Hu & _).
  exists h, response, body.
  destruct (extractUsage_presence _ _ Hu) as [Hiff Htok].
  split; [exact Hh|]. split; [exact Hf|]. split; [exact Hj|].
  split; [exact Hiff | exact Htok].
Qed.

End WithPlatform.

(** A reply whose [usage] is [null]: the call succeeds and reports no
    usage. *)
Lemma doEmbed_usage_presence_witness :
  let reply := Doubles.replying 200 "{...}"
                 (JObject [("data", JArray []); ("usage", JNull)]) in
  exists r w',
    @doEmbed Doubles.offline (Doubles.embeddingModel reply) (Doubles.embed ["a"])
      Doubles.world = (Normal r, w')
    /\ ~ is_Some (usage r).
Proof.
  intros reply.
  pose (self := Doubles.embeddingModel reply).
  pose (w' := recordCall (@request Doubles.offline self (Doubles.embed ["a"])
                            {[ "Authorization" := "Bearer secret" ]}) Doubles.world).
  pose (r := {| embeddings := []; usage := None;
                rawResponse_headers := {[ "content-type" := "application/json" ]} |}).
  assert (Hrun : @doEmbed Doubles.offline self (Doubles.embed ["a"]) Doubles.world
                 = (Normal r, w')) by reflexivity.
  exists r, w'. split; [exact Hrun|].
  destruct (@doEmbed_usage_presence Doubles.offline self (Doubles.embed ["a"])
              Doubles.world r w' Hrun)
    as (h & response & body & _ & Hf & Hj & Hiff & _).
  injection Hf as <-. injection Hj as <-.
  intros Hsome. apply Hiff in Hsome as [_ (v & Hv & Ht)].
  injection Hv as <-. discriminate Ht.
Defined.

End UsagePresence.
